(** * AI Calorie Counter: the upload form of [frontend/src/App.tsx]

    A shallow embedding of the React component [App]: its five state
    cells, the two [Upload] callbacks ([onRemove], [beforeUpload]), the
    asynchronous [handleUpload] and the JSX it returns, followed by the
    properties of the upload-and-analysis contract.

    Conventions of the embedding.
    - React state is a record [State]; a setter overwrites one field.
      Each synchronous run of a handler (from an event to the next
      [await]) is one atomic transition.
    - Everything a handler does to the outside world ([message.error],
      [FileReader.readAsDataURL], [URL.createObjectURL], [fetch]) is
      recorded, in order, in a list of [Effect]s.
    - Values that come back from the outside world (the object URL, the
      data URL of the preview, the settled [fetch] promise and the settled
      [response.json()] promise) are arguments chosen by the environment.
    - [throw], [try]/[catch] and [try]/[finally] are those of a small
      state-and-exception monad [M] in which, as in JavaScript, the state
      written before a throw is kept. *)

From Stdlib Require Import String Ascii List Bool Arith NArith ZArith QArith Lia.
From Stdlib Require Import DecimalString.
Import ListNotations.

Local Open Scope string_scope.

(** ** JavaScript values as far as the component observes them *)

(** A JSON-born JavaScript value.  [JUndefined] is what reading an absent
    property gives.  A number is identified by its [Number::toString]
    rendering (the shortest decimal text that reads back as the same
    double; ["0"] for both zeros): the component never computes with a
    parsed number, it only tests it for truth, prints it or hands it to a
    widget.  [JObj] lists the own properties of a parsed object, whose
    keys are distinct. *)
#[warnings="-register-all"]
Inductive JsVal : Type :=
| JUndefined
| JNull
| JBool (b : bool)
| JNum (rendering : string)
| JStr (s : string)
| JArr (items : list JsVal)
| JObj (fields : list (string * JsVal)).

(** ToBoolean. *)
Definition js_truthy (v : JsVal) : bool :=
  match v with
  | JUndefined | JNull => false
  | JBool b => b
  | JNum r => negb (r =? "0")
  | JStr s => negb (s =? "")
  | JArr _ | JObj _ => true
  end.

(** [a || b] *)
Definition js_or (a b : JsVal) : JsVal := if js_truthy a then a else b.

(** [Array.prototype.join] on already rendered items. *)
Fixpoint join (sep : string) (parts : list string) : string :=
  match parts with
  | [] => ""
  | [p] => p
  | p :: rest => p ++ sep ++ join sep rest
  end.

Fixpoint lookup (key : string) (fields : list (string * JsVal)) : option JsVal :=
  match fields with
  | [] => None
  | (k, v) :: rest => if k =? key then Some v else lookup key rest
  end.

(** An [Error] object, as far as [err.message] goes. *)
Record JsError : Type := { err_message : string }.

(** How an evaluation ends: with a value, or with a thrown error. *)
Inductive Completion (A : Type) : Type :=
| Normal (a : A)
| Throw (e : JsError).
Arguments Normal {A} a.
Arguments Throw {A} e.

(** The [TypeError] of converting to a primitive an object that has
    none. *)
Definition TypeError_to_primitive : JsError :=
  {| err_message := "Cannot convert object to primitive value" |}.

(** ToString.  An array prints its items in order, separated by commas,
    [null] and [undefined] items printing as nothing; the first item
    whose conversion throws makes the whole conversion throw.  A plain
    object prints as [[object Object]] through [Object.prototype.toString],
    unless it has an own property [toString]: a parsed value is never
    callable, [valueOf] then returns the object itself, and the
    conversion throws a [TypeError]. *)
Fixpoint js_to_string (v : JsVal) : Completion string :=
  match v with
  | JUndefined => Normal "undefined"
  | JNull => Normal "null"
  | JBool true => Normal "true"
  | JBool false => Normal "false"
  | JNum r => Normal r
  | JStr s => Normal s
  | JArr items =>
      match (fix each (items : list JsVal) : Completion (list string) :=
               match items with
               | [] => Normal []
               | item :: rest =>
                   match (match item with
                          | JUndefined | JNull => Normal ""
                          | _ => js_to_string item
                          end) with
                   | Throw e => Throw e
                   | Normal part =>
                       match each rest with
                       | Throw e => Throw e
                       | Normal parts => Normal (part :: parts)
                       end
                   end
               end) items with
      | Throw e => Throw e
      | Normal parts => Normal (join "," parts)
      end
  | JObj fields =>
      match lookup "toString" fields with
      | Some _ => Throw TypeError_to_primitive
      | None => Normal "[object Object]"
      end
  end.

(** The [TypeError] of reading property [key] of [v], for [v] one of
    [null] and [undefined]. *)
Definition TypeError_read (v : JsVal) (key : string) : JsError :=
  {| err_message :=
       "Cannot read properties of "
       ++ match v with JNull => "null" | _ => "undefined" end
       ++ " (reading '" ++ key ++ "')" |}.

(** Decimal text of a small non-negative integer, as a template literal
    prints [response.status]. *)
Definition decimal (n : N) : string := NilZero.string_of_uint (N.to_uint n).

(** ** Files *)

(** [RcFile]: a browser [File] with antd's [uid].  [size] is the byte
    length the browser reports. *)
Record RcFile : Type := {
  rc_uid : string;
  rc_name : string;
  type : string;
  size : N;
  content : list Byte.byte
}.

(** What may sit in [UploadFile.originFileObj] at run time. *)
Inductive FileObject : Type :=
| IsBlob (file : RcFile)
| NotBlob (description : string).

(** [UploadFile], with the fields the component writes. *)
Record UploadFile : Type := {
  uid : string;
  name : string;
  status : string;
  url : string;
  originFileObj : option FileObject
}.

Inductive FormValue : Type :=
| FormBlob (file : RcFile)
| FormString (s : string).

Definition FormData : Type := list (string * FormValue).

Definition append (form : FormData) (field : string) (v : FormValue) : FormData :=
  (form ++ [(field, v)])%list.

(** ** The component state and its effects *)

Record State : Type := {
  fileList : list UploadFile;
  uploading : bool;
  imageUrl : option string;
  result : JsVal;
  error : option string
}.

(** The five [useState] initial values. *)
Definition initial_state : State :=
  {| fileList := []; uploading := false; imageUrl := None;
     result := JNull; error := None |}.

Inductive Effect : Type :=
| message_error (text : string)
| readAsDataURL (file : RcFile)
| createObjectURL (file : RcFile)
| fetch (resource : string) (method : string) (body : FormData).

(** ** The handler monad *)

Definition M (A : Type) : Type := State -> Completion A * State * list Effect.

Definition ret {A} (a : A) : M A := fun s => (Normal a, s, []).

Definition bind {A B} (m : M A) (k : A -> M B) : M B :=
  fun s =>
    match m s with
    | (Normal a, s1, out1) =>
        match k a s1 with
        | (c, s2, out2) => (c, s2, (out1 ++ out2)%list)
        end
    | (Throw e, s1, out1) => (Throw e, s1, out1)
    end.

Definition throw {A} (e : JsError) : M A := fun s => (Throw e, s, []).

(** [new Error(v)]: the message is ToString of the argument, and the
    construction throws when that conversion does. *)
Definition new_Error (v : JsVal) : M JsError :=
  match js_to_string v with
  | Normal text => fun s => (Normal {| err_message := text |}, s, [])
  | Throw e => throw e
  end.

(** The [message] of what [throw new Error(v)] raises: the text of [v],
    or the message of the [TypeError] of its conversion. *)
Definition thrown_message (v : JsVal) : string :=
  match js_to_string v with
  | Normal text => text
  | Throw e => err_message e
  end.

(** [try { body } catch (err) { handler }] *)
Definition try_catch {A} (body : M A) (handler : JsError -> M A) : M A :=
  fun s =>
    match body s with
    | (Normal a, s1, out1) => (Normal a, s1, out1)
    | (Throw e, s1, out1) =>
        match handler e s1 with
        | (c, s2, out2) => (c, s2, (out1 ++ out2)%list)
        end
    end.

(** [try { body } finally { final }] *)
Definition try_finally {A} (body : M A) (final : M unit) : M A :=
  fun s =>
    match body s with
    | (c, s1, out1) =>
        match final s1 with
        | (Normal _, s2, out2) => (c, s2, (out1 ++ out2)%list)
        | (Throw e, s2, out2) => (Throw e, s2, (out1 ++ out2)%list)
        end
    end.

Declare Scope handler_scope.
Delimit Scope handler_scope with handler.
Notation "x <- m ;; k" := (bind m (fun x => k))
  (at level 61, m at next level, right associativity) : handler_scope.
Notation "m ;; k" := (bind m (fun _ => k))
  (at level 61, right associativity) : handler_scope.
Local Open Scope handler_scope.

Definition emit (e : Effect) : M unit := fun s => (Normal tt, s, [e]).

Definition setFileList (l : list UploadFile) : M unit :=
  fun s => (Normal tt,
            {| fileList := l; uploading := uploading s; imageUrl := imageUrl s;
               result := result s; error := error s |}, []).

Definition setUploading (b : bool) : M unit :=
  fun s => (Normal tt,
            {| fileList := fileList s; uploading := b; imageUrl := imageUrl s;
               result := result s; error := error s |}, []).

Definition setImageUrl (u : option string) : M unit :=
  fun s => (Normal tt,
            {| fileList := fileList s; uploading := uploading s; imageUrl := u;
               result := result s; error := error s |}, []).

Definition setResult (r : JsVal) : M unit :=
  fun s => (Normal tt,
            {| fileList := fileList s; uploading := uploading s; imageUrl := imageUrl s;
               result := r; error := error s |}, []).

Definition setError (e : option string) : M unit :=
  fun s => (Normal tt,
            {| fileList := fileList s; uploading := uploading s; imageUrl := imageUrl s;
               result := result s; error := e |}, []).

Definition getFileList : M (list UploadFile) := fun s => (Normal (fileList s), s, []).

(** Projections of a run. *)
Definition completion_of {A} (r : Completion A * State * list Effect) : Completion A :=
  fst (fst r).
Definition state_of {A} (r : Completion A * State * list Effect) : State :=
  snd (fst r).
Definition effects_of {A} (r : Completion A * State * list Effect) : list Effect :=
  snd r.

(** ** [props.onRemove] and [props.beforeUpload] *)

Definition MAX_FILE_SIZE_MB : Z := 4.

Definition onRemove : M unit :=
  setFileList [] ;;
  setImageUrl None ;;
  setError None.

Definition isJpgOrPng (file : RcFile) : bool :=
  (type file =? "image/jpeg") || (type file =? "image/png").

(** [file.size / 1024 / 1024 < MAX_FILE_SIZE_MB].  The quotient is taken
    in the rationals: dividing a byte count by a power of two is exact on
    doubles, so no rounding separates the two. *)
Definition isUnderSizeLimit (file : RcFile) : bool :=
  negb (Qle_bool (inject_Z MAX_FILE_SIZE_MB)
                 (inject_Z (Z.of_N (size file)) / 1024 / 1024)).

Definition type_message : string := "You can only upload JPG/PNG file!".

Definition size_message : string :=
  "Image must be smaller than " ++ decimal (Z.to_N MAX_FILE_SIZE_MB)
  ++ "MB for serverless functions!".

(** The entry [beforeUpload] puts in [fileList]; [objectUrl] is what
    [URL.createObjectURL(file)] returned. *)
Definition upload_entry (file : RcFile) (objectUrl : string) : UploadFile :=
  {| uid := rc_uid file; name := rc_name file; status := "done";
     url := objectUrl; originFileObj := Some (IsBlob file) |}.

(** [beforeUpload].  Every path returns [Upload.LIST_IGNORE], so antd's
    own list never receives the file: the value is not modelled.  The
    [onload] callback of the reader runs later, see [reader_onload]. *)
Definition beforeUpload (file : RcFile) (objectUrl : string) : M unit :=
  if negb (isJpgOrPng file) then
    emit (message_error type_message)
  else if negb (isUnderSizeLimit file) then
    emit (message_error size_message)
  else
    emit (readAsDataURL file) ;;
    emit (createObjectURL file) ;;
    setFileList [upload_entry file objectUrl] ;;
    setError None.

(** [reader.onload]: [e.target?.result] is the data URL of the file. *)
Definition reader_onload (dataUrl : string) : M unit :=
  setImageUrl (Some dataUrl).

(** ** The network, as [handleUpload] sees it *)

(** A settled promise. *)
Inductive Settled (A : Type) : Type :=
| Rejected (e : JsError)
| Resolved (a : A).
Arguments Rejected {A} e.
Arguments Resolved {A} a.

(** A [Response]: its status and what [response.json()] settles to. *)
Record Response : Type := {
  response_status : N;
  json : Settled JsVal
}.

(** The [ok] getter of the Fetch standard: a status from 200 to 299. *)
Definition ok (response : Response) : bool :=
  (200 <=? response_status response)%N && (response_status response <=? 299)%N.

Definition await {A} (p : Settled A) : M A :=
  match p with
  | Rejected e => throw e
  | Resolved a => ret a
  end.

(** The property [key] of a value that is neither [null] nor
    [undefined], for a key no prototype defines: the own property of an
    object, [undefined] when absent or when [v] is not an object. *)
Definition property (v : JsVal) (key : string) : JsVal :=
  match v with
  | JObj fields =>
      match lookup key fields with
      | Some x => x
      | None => JUndefined
      end
  | _ => JUndefined
  end.

(** The expression [v.key]: a [TypeError] on [null] and [undefined]. *)
Definition member (v : JsVal) (key : string) : M JsVal :=
  match v with
  | JUndefined | JNull => throw (TypeError_read v key)
  | _ => ret (property v key)
  end.

(** The template literal [`Error ${response.status}`]. *)
Definition error_status (response : Response) : string :=
  "Error " ++ decimal (response_status response).

(** Lines 112-118: the inner [try]/[catch] computing [errorMessage].
    [||] is short-circuit: [errorData.error] is read only when
    [errorData.message] is falsy. *)
Definition errorMessage_of (response : Response) : M JsVal :=
  try_catch
    (errorData <- await (json response) ;;
     m <- member errorData "message" ;;
     if js_truthy m then ret m
     else
       e <- member errorData "error" ;;
       ret (js_or e (JStr (error_status response))))
    (fun _ => ret (JStr (error_status response))).

(** ** [handleUpload] *)

(** Lines 86-109, up to the first [await]: the guards, the form, the two
    setters and the call of [fetch].  [Some formData] when the request
    was issued, [None] when the handler returned early. *)
Definition handleUpload_start : M (option FormData) :=
  files <- getFileList ;;
  match files with
  | [] =>
      emit (message_error "Please select an image first!") ;;
      ret None
  | file :: _ =>
      let formData : FormData := [] in
      match originFileObj file with
      | Some (IsBlob blob) =>
          let formData := append formData "image" (FormBlob blob) in
          setUploading true ;;
          setError None ;;
          emit (fetch "/api/analyze" "POST" formData) ;;
          ret (Some formData)
      | _ =>
          emit (message_error "Invalid file object") ;;
          ret None
      end
  end.

(** Lines 106-129, from the settling of the [fetch] promise on.  Between
    that moment and the settling of [response.json()] the handler writes
    no state, so the two awaits are run as one transition. *)
Definition handleUpload_resume (fetched : Settled Response) : M unit :=
  try_finally
    (try_catch
       (response <- await fetched ;;
        (if negb (ok response) then
           errorMessage <- errorMessage_of response ;;
           thrown <- new_Error errorMessage ;;
           throw thrown
         else ret tt) ;;
        data <- await (json response) ;;
        setResult data)
       (fun err =>
          setError (Some (err_message err)) ;;
          setResult JNull))
    (setUploading false).

(** One whole invocation, run to completion. *)
Definition handleUpload (fetched : Settled Response) : M unit :=
  started <- handleUpload_start ;;
  match started with
  | None => ret tt
  | Some _ => handleUpload_resume fetched
  end.

Definition is_fetch (e : Effect) : bool :=
  match e with fetch _ _ _ => true | _ => false end.

Definition is_message (e : Effect) : bool :=
  match e with message_error _ => true | _ => false end.

(** The requests a run issued. *)
Definition requests (out : list Effect) : list Effect := filter is_fetch out.

(** The toasts a run showed. *)
Definition messages (out : list Effect) : list Effect := filter is_message out.

(** The file a submission from state [s] would send: the Blob behind
    [fileList[0]], if there is one. *)
Definition selected_blob (s : State) : option RcFile :=
  match fileList s with
  | file :: _ =>
      match originFileObj file with
      | Some (IsBlob blob) => Some blob
      | _ => None
      end
  | [] => None
  end.

(** ** The response document *)

(** A TypeScript [number], by its rendering (see [JNum]). *)
Definition number : Type := string.

Module NutritionInfo.
Record t : Type := {
  name : string;
  calories : number;
  protein : number;
  carbs : number;
  fats : number;
  error : option string
}.

(** The parsed object of a conforming document; [error] is an own
    property only when present. *)
Definition to_js (n : t) : JsVal :=
  JObj ([("name", JStr (name n)); ("calories", JNum (calories n));
         ("protein", JNum (protein n)); ("carbs", JNum (carbs n));
         ("fats", JNum (fats n))]
        ++ match error n with
           | Some e => [("error", JStr e)]
           | None => []
           end)%list.
End NutritionInfo.

Module AnalysisResult.
Record t : Type := {
  detected_food : list string;
  main_ingredient : string;
  nutrition_info : NutritionInfo.t;
  healthier_alternative : string
}.

Definition to_js (r : t) : JsVal :=
  JObj [("detected_food", JArr (map JStr (detected_food r)));
        ("main_ingredient", JStr (main_ingredient r));
        ("nutrition_info", NutritionInfo.to_js (nutrition_info r));
        ("healthier_alternative", JStr (healthier_alternative r))].
End AnalysisResult.

(** ** The rendered tree (lines 139-233) *)

Inductive Icon : Type := LoadingOutlined | UploadOutlined.

(** [<Statistic title value suffix />] *)
Record Statistic : Type := {
  title : string;
  value : JsVal;
  suffix : string
}.

(** The third [result-item]: either the red text alone, or the heading,
    the name and the row of four statistics. *)
Inductive NutritionItem : Type :=
| NutritionError (text : JsVal)
| NutritionFacts (name : JsVal) (statistics : list Statistic).

(** [<div className="results-section">]; children are kept as the
    JavaScript values handed to the widgets. *)
Record ResultsSection : Type := {
  detected_foods : JsVal;
  main_ingredient : JsVal;
  nutrition : NutritionItem;
  healthier_alternative : JsVal;
  food_image : option string
}.

Record View : Type := {
  upload_list : list UploadFile;
  upload_button : option Icon;
  analyze_disabled : bool;
  analyze_loading : bool;
  analyze_label : string;
  error_section : option string;
  results_section : option ResultsSection
}.

Definition get_state : M State := fun s => (Normal s, s, []).

(** [s && (...)] on a [string | null]: only a non-empty string renders. *)
Definition when_string {A} (s : option string) (f : string -> A) : option A :=
  match s with
  | Some text => if text =? "" then None else Some (f text)
  | None => None
  end.

(** Lines 191-214. *)
Definition render_nutrition (nutrition_info : JsVal) : M NutritionItem :=
  err <- member nutrition_info "error" ;;
  if js_truthy err then ret (NutritionError err)
  else
    name <- member nutrition_info "name" ;;
    calories <- member nutrition_info "calories" ;;
    protein <- member nutrition_info "protein" ;;
    carbs <- member nutrition_info "carbs" ;;
    fats <- member nutrition_info "fats" ;;
    ret (NutritionFacts name
           [ {| title := "Calories"; value := calories; suffix := "kcal" |};
             {| title := "Protein"; value := protein; suffix := "g" |};
             {| title := "Carbs"; value := carbs; suffix := "g" |};
             {| title := "Fats"; value := fats; suffix := "g" |} ]).

(** Lines 171-230, for a truthy [result]. *)
Definition render_results (data : JsVal) (image : option string) : M ResultsSection :=
  foods <- member data "detected_food" ;;
  main <- member data "main_ingredient" ;;
  nutrition_info <- member data "nutrition_info" ;;
  item <- render_nutrition nutrition_info ;;
  alternative <- member data "healthier_alternative" ;;
  ret {| detected_foods := foods; main_ingredient := main; nutrition := item;
         healthier_alternative := alternative;
         food_image := when_string image (fun u => u) |}.

(** The component body after the hooks: the tree for the current state.
    It throws when a property is read through [null] or [undefined]. *)
Definition render : M View :=
  s <- get_state ;;
  results <- (if js_truthy (result s)
              then section <- render_results (result s) (imageUrl s) ;;
                   ret (Some section)
              else ret None) ;;
  ret {| upload_list := fileList s;
         upload_button :=
           if (1 <=? length (fileList s))%nat then None
           else Some (if uploading s then LoadingOutlined else UploadOutlined);
         analyze_disabled := (length (fileList s) =? 0)%nat;
         analyze_loading := uploading s;
         analyze_label := if uploading s then "Analyzing..." else "Analyze Food";
         error_section := when_string (error s) (fun text => text);
         results_section := results |}.

(** ** The client as a transition system *)

(** The component state together with the number of [fetch] promises
    that have not settled yet. *)
Record Config : Type := {
  state : State;
  in_flight : nat
}.

Definition initial_config : Config := {| state := initial_state; in_flight := 0 |}.

Inductive Event : Type :=
| SelectFile (file : RcFile) (objectUrl : string)
| RemoveFile
| ReaderLoaded (dataUrl : string)
| ClickAnalyze
| FetchSettled (fetched : Settled Response).

(** The Analyze button answers a click unless it is [disabled] or
    [loading] (line 151-152). *)
Definition clickable (s : State) : bool :=
  negb (length (fileList s) =? 0)%nat && negb (uploading s).

(** One event of the page.  [None] when the event cannot happen in the
    configuration: a click on a dead button, a settling with nothing in
    flight.  A [ReaderLoaded] is allowed at any time, which only adds
    behaviours. *)
Definition step (c : Config) (ev : Event) : option Config :=
  match ev with
  | SelectFile file objectUrl =>
      Some {| state := state_of (beforeUpload file objectUrl (state c));
              in_flight := in_flight c |}
  | RemoveFile =>
      Some {| state := state_of (onRemove (state c)); in_flight := in_flight c |}
  | ReaderLoaded dataUrl =>
      Some {| state := state_of (reader_onload dataUrl (state c));
              in_flight := in_flight c |}
  | ClickAnalyze =>
      if clickable (state c) then
        match handleUpload_start (state c) with
        | (Normal (Some _), s, _) => Some {| state := s; in_flight := S (in_flight c) |}
        | (_, s, _) => Some {| state := s; in_flight := in_flight c |}
        end
      else None
  | FetchSettled fetched =>
      match in_flight c with
      | O => None
      | S n =>
          Some {| state := state_of (handleUpload_resume fetched (state c));
                  in_flight := n |}
      end
  end.

Fixpoint run (c : Config) (evs : list Event) : option Config :=
  match evs with
  | [] => Some c
  | ev :: rest =>
      match step c ev with
      | Some c' => run c' rest
      | None => None
      end
  end.

Inductive Reachable : Config -> Prop :=
| reach_initial : Reachable initial_config
| reach_step c ev c' : Reachable c -> step c ev = Some c' -> Reachable c'.

(** The invariant of the transition system: [uploading] is on exactly
    while one request is in flight, never more than one; no error is
    stored while a request is in flight; a stored error comes with a
    cleared result; the selection holds at most one file. *)
Record Inv (c : Config) : Prop := {
  inv_in_flight : in_flight c = if uploading (state c) then 1%nat else 0%nat;
  inv_no_error_in_flight : uploading (state c) = true -> error (state c) = None;
  inv_error_clears_result : error (state c) <> None -> result (state c) = JNull;
  inv_one_file : (length (fileList (state c)) <= 1)%nat
}.

(** ** Sample inputs *)

Definition apple_png : RcFile :=
  {| rc_uid := "rc-upload-1"; rc_name := "apple.png"; type := "image/png";
     size := 2048; content := [Byte.x89; Byte.x50; Byte.x4e; Byte.x47] |}.

Definition notes_pdf : RcFile :=
  {| rc_uid := "rc-upload-2"; rc_name := "notes.pdf"; type := "application/pdf";
     size := 2048; content := [Byte.x25; Byte.x50; Byte.x44; Byte.x46] |}.

(** A JPEG of exactly 4 MiB. *)
Definition large_jpeg : RcFile :=
  {| rc_uid := "rc-upload-3"; rc_name := "feast.jpg"; type := "image/jpeg";
     size := 4194304; content := [Byte.xff; Byte.xd8; Byte.xff] |}.

(** The state after [apple_png] was selected on a fresh page. *)
Definition ready : State :=
  state_of (beforeUpload apple_png "blob:apple" initial_state).

Definition apple : AnalysisResult.t :=
  {| AnalysisResult.detected_food := ["apple"; "fruit"];
     AnalysisResult.main_ingredient := "apple";
     AnalysisResult.nutrition_info :=
       {| NutritionInfo.name := "Apple"; NutritionInfo.calories := "95";
          NutritionInfo.protein := "0.5"; NutritionInfo.carbs := "25";
          NutritionInfo.fats := "0.3"; NutritionInfo.error := None |};
     AnalysisResult.healthier_alternative := "Already a healthy choice" |}.

(** The same document with an [error] property holding the empty string. *)
Definition apple_blank_error : AnalysisResult.t :=
  {| AnalysisResult.detected_food := ["apple"; "fruit"];
     AnalysisResult.main_ingredient := "apple";
     AnalysisResult.nutrition_info :=
       {| NutritionInfo.name := "Apple"; NutritionInfo.calories := "95";
          NutritionInfo.protein := "0.5"; NutritionInfo.carbs := "25";
          NutritionInfo.fats := "0.3"; NutritionInfo.error := Some "" |};
     AnalysisResult.healthier_alternative := "Already a healthy choice" |}.

(** A document whose lookup failed. *)
Definition unknown_dish : AnalysisResult.t :=
  {| AnalysisResult.detected_food := ["dish"];
     AnalysisResult.main_ingredient := "dish";
     AnalysisResult.nutrition_info :=
       {| NutritionInfo.name := ""; NutritionInfo.calories := "0";
          NutritionInfo.protein := "0"; NutritionInfo.carbs := "0";
          NutritionInfo.fats := "0";
          NutritionInfo.error := Some "No nutrition data found" |};
     AnalysisResult.healthier_alternative := "Try a salad" |}.

Definition respond (status : N) (body : JsVal) : Settled Response :=
  Resolved {| response_status := status; json := Resolved body |}.

(** ** Further notions used by the coverage properties *)

(** Both admission checks of [beforeUpload] at once. *)
Definition admissible (file : RcFile) : bool :=
  isJpgOrPng file && isUnderSizeLimit file.

(** Every entry of the selection was built by [beforeUpload] from a file
    that passed both checks. *)
Definition selection_checked (s : State) : Prop :=
  forall entry, In entry (fileList s) ->
                exists file objectUrl,
                  entry = upload_entry file objectUrl /\ admissible file = true.

(** A value that is a string or is missing. *)
Definition string_or_missing (v : JsVal) : bool :=
  match v with
  | JStr _ | JUndefined | JNull => true
  | _ => false
  end.

(** [null] or [undefined]: the values a property cannot be read from. *)
Definition nullish (v : JsVal) : bool :=
  match v with
  | JUndefined | JNull => true
  | _ => false
  end.

(** ** The debug page

    The stand-alone HTML page of the repository that posts a file to the
    backend directly: its [submit] listener (lines 60-106 of the page),
    cut at its [await]s into the segments that run without interruption.
    The DOM it touches is the record [Page]; [console] calls, [alert],
    [preventDefault] and [fetch] are logged as effects. *)
Module DebugTool.

(** An entry of [fileInput.files]. *)
Record File : Type := {
  file_name : string;
  file_type : string;
  file_size : N;
  file_content : list Byte.byte
}.

Definition FormData : Type := list (string * File).

(** An error object with its [name]; [toString] is
    [Error.prototype.toString]. *)
Record ErrorObject : Type := {
  error_name : string;
  error_message : string
}.

Definition toString (e : ErrorObject) : string :=
  if error_name e =? "" then error_message e
  else if error_message e =? "" then error_name e
  else error_name e ++ ": " ++ error_message e.

(** [new Error(text)] *)
Definition new_Error (text : string) : ErrorObject :=
  {| error_name := "Error"; error_message := text |}.

Inductive Promise (A : Type) : Type :=
| Rejects (e : ErrorObject)
| Resolves (a : A).
Arguments Rejects {A} e.
Arguments Resolves {A} a.

(** A response: its status and what [text()] and [json()] settle to. *)
Record Response : Type := {
  status : N;
  text : Promise string;
  json : Promise JsVal
}.

Definition ok (response : Response) : bool :=
  (200 <=? status response)%N && (status response <=? 299)%N.

(** The text content of a [pre]: a literal text, or the text
    [JSON.stringify(data, null, 2)] of a value, kept as that value. *)
Inductive TextContent : Type :=
| Literal (s : string)
| Stringified (data : JsVal).

(** The two panels: whether each carries the class [hidden], and the
    text of its [pre]. *)
Record Page : Type := {
  results_hidden : bool;
  responseData : TextContent;
  error_hidden : bool;
  errorData : TextContent
}.

(** The page as loaded: both panels hidden and empty. *)
Definition loaded : Page :=
  {| results_hidden := true; responseData := Literal "";
     error_hidden := true; errorData := Literal "" |}.

Inductive LogArg : Type :=
| LogText (s : string)
| LogNumber (n : N)
| LogValue (v : JsVal)
| LogError (e : ErrorObject).

Inductive Effect : Type :=
| preventDefault
| alert (message : string)
| console_log (args : list LogArg)
| console_error (args : list LogArg)
| fetch (resource : string) (method : string) (body : FormData).

(** The [catch] block (lines 101-105). *)
Definition on_error (e : ErrorObject) (page : Page) : Page * list Effect :=
  ({| results_hidden := results_hidden page; responseData := responseData page;
      error_hidden := false; errorData := Literal (toString e) |},
   [console_error [LogText "Error:"; LogError e]]).

(** Where a started run of the listener is waiting. *)
Inductive Stage : Type :=
| AwaitingFetch
| AwaitingText (response : Response)
| AwaitingJson (response : Response).

(** Lines 61-87, up to the first [await]: both panels are hidden, then
    the guard, the form and the call of [fetch].  [Some AwaitingFetch]
    when the request was sent, [None] when the listener returned. *)
Definition submit_start (files : list File) (page : Page)
  : Page * list Effect * option Stage :=
  let hidden :=
    {| results_hidden := true; responseData := responseData page;
       error_hidden := true; errorData := errorData page |} in
  match files with
  | [] => (hidden, [preventDefault; alert "Please select a file"], None)
  | file :: _ =>
      let formData : FormData := [("image", file)] in
      (hidden,
       [preventDefault;
        console_log [LogText "Starting upload..."];
        fetch "http://localhost:8000/analyze-food/" "POST" formData],
       Some AwaitingFetch)
  end.

(** Lines 84-96, when the [fetch] promise settles, on the page as it
    then is.  A rejection runs the [catch] block.  A response is logged
    and the run waits for its body, [text()] for a status that is not
    ok, [json()] otherwise; the page is not written. *)
Definition on_fetch_settled (fetched : Promise Response) (page : Page)
  : Page * list Effect * option Stage :=
  match fetched with
  | Rejects e => let (page', out) := on_error e page in (page', out, None)
  | Resolves response =>
      (page,
       [console_log [LogText "Response status:"; LogNumber (status response)]],
       Some (if negb (ok response) then AwaitingText response
             else AwaitingJson response))
  end.

(** Lines 92-105, when the body promise settles, on the page as it then
    is. *)
Definition on_body_settled (stage : Stage) (page : Page) : Page * list Effect :=
  match stage with
  | AwaitingFetch => (page, [])
  | AwaitingText response =>
      match text response with
      | Rejects e => on_error e page
      | Resolves errorText =>
          on_error
            (new_Error ("HTTP error " ++ decimal (status response) ++ ": " ++ errorText))
            page
      end
  | AwaitingJson response =>
      match json response with
      | Rejects e => on_error e page
      | Resolves data =>
          ({| results_hidden := false; responseData := Stringified data;
              error_hidden := error_hidden page; errorData := errorData page |},
           [console_log [LogText "Response data:"; LogValue data]])
      end
  end.

(** The page with the runs of the listener that have not ended: nothing
    keeps a second submit from starting while a first one waits. *)
Record Tab : Type := {
  page : Page;
  pending : list Stage
}.

Inductive Event : Type :=
| Submit (files : list File)
| FetchSettles (run : nat) (fetched : Promise Response)
| BodySettles (run : nat).

Definition remove_at {A} (i : nat) (l : list A) : list A :=
  (firstn i l ++ skipn (S i) l)%list.

Definition replace_at {A} (i : nat) (x : A) (l : list A) : list A :=
  (firstn i l ++ x :: skipn (S i) l)%list.

(** One event of the debug page; [None] when run number [run] is not
    waiting for that. *)
Definition step (t : Tab) (ev : Event) : option Tab :=
  match ev with
  | Submit files =>
      match submit_start files (page t) with
      | (page', _, Some stage) =>
          Some {| page := page'; pending := (pending t ++ [stage])%list |}
      | (page', _, None) => Some {| page := page'; pending := pending t |}
      end
  | FetchSettles run fetched =>
      match nth_error (pending t) run with
      | Some AwaitingFetch =>
          match on_fetch_settled fetched (page t) with
          | (page', _, Some stage) =>
              Some {| page := page'; pending := replace_at run stage (pending t) |}
          | (page', _, None) =>
              Some {| page := page'; pending := remove_at run (pending t) |}
          end
      | _ => None
      end
  | BodySettles run =>
      match nth_error (pending t) run with
      | Some AwaitingFetch | None => None
      | Some stage =>
          Some {| page := fst (on_body_settled stage (page t));
                  pending := remove_at run (pending t) |}
      end
  end.

Fixpoint run (t : Tab) (evs : list Event) : option Tab :=
  match evs with
  | [] => Some t
  | ev :: rest =>
      match step t ev with
      | Some t' => run t' rest
      | None => None
      end
  end.

Definition is_fetch (e : Effect) : bool :=
  match e with fetch _ _ _ => true | _ => false end.

Definition requests (out : list Effect) : list Effect := filter is_fetch out.

End DebugTool.

(** * Properties *)

(** ** The admission checks *)

Lemma isJpgOrPng_spec file :
  isJpgOrPng file = true <-> type file = "image/jpeg" \/ type file = "image/png".
Proof.
  unfold isJpgOrPng. rewrite orb_true_iff, !String.eqb_eq. tauto.
Qed.

Lemma isUnderSizeLimit_spec file :
  isUnderSizeLimit file = true <-> (size file < 4 * 1024 * 1024)%N.
Proof.
  unfold isUnderSizeLimit, MAX_FILE_SIZE_MB.
  rewrite negb_true_iff, <- not_true_iff_false, Qle_bool_iff.
  unfold Qle, Qdiv, Qmult, Qinv, inject_Z. simpl. lia.
Qed.

Lemma beforeUpload_wrong_type file objectUrl s :
  isJpgOrPng file = false ->
  beforeUpload file objectUrl s = (Normal tt, s, [message_error type_message]).
Proof. intros H. unfold beforeUpload. rewrite H. reflexivity. Qed.

Lemma beforeUpload_too_large file objectUrl s :
  isJpgOrPng file = true -> isUnderSizeLimit file = false ->
  beforeUpload file objectUrl s = (Normal tt, s, [message_error size_message]).
Proof. intros H1 H2. unfold beforeUpload. rewrite H1, H2. reflexivity. Qed.

Lemma beforeUpload_accepts file objectUrl s :
  isJpgOrPng file = true -> isUnderSizeLimit file = true ->
  beforeUpload file objectUrl s =
  (Normal tt,
   {| fileList := [upload_entry file objectUrl]; uploading := uploading s;
      imageUrl := imageUrl s; result := result s; error := None |},
   [readAsDataURL file; createObjectURL file]).
Proof. intros H1 H2. unfold beforeUpload. rewrite H1, H2. reflexivity. Qed.

(** ** [handleUpload], path by path *)

Lemma handleUpload_start_empty s :
  fileList s = [] ->
  handleUpload_start s = (Normal None, s, [message_error "Please select an image first!"]).
Proof. intros H. unfold handleUpload_start, bind, getFileList. rewrite H. reflexivity. Qed.

Lemma handleUpload_start_not_blob s file rest :
  fileList s = file :: rest ->
  (forall blob, originFileObj file <> Some (IsBlob blob)) ->
  handleUpload_start s = (Normal None, s, [message_error "Invalid file object"]).
Proof.
  intros H Hn. unfold handleUpload_start, bind, getFileList. rewrite H.
  destruct (originFileObj file) as [[blob|d]|] eqn:E; try reflexivity.
  exfalso. exact (Hn blob eq_refl).
Qed.

Lemma handleUpload_start_blob s blob :
  selected_blob s = Some blob ->
  handleUpload_start s =
  (Normal (Some [("image", FormBlob blob)]),
   {| fileList := fileList s; uploading := true; imageUrl := imageUrl s;
      result := result s; error := None |},
   [fetch "/api/analyze" "POST" [("image", FormBlob blob)]]).
Proof.
  unfold selected_blob, handleUpload_start, bind, getFileList.
  destruct (fileList s) as [|file rest] eqn:E; [discriminate|].
  destruct (originFileObj file) as [[b|d]|]; try discriminate.
  intros [= ->]. cbn. rewrite E. reflexivity.
Qed.

(** [errorMessage] is always computed: the inner [catch] swallows every
    throw, and nothing is written or emitted on the way. *)
Lemma errorMessage_of_rejected response e s :
  json response = Rejected e ->
  errorMessage_of response s = (Normal (JStr (error_status response)), s, []).
Proof. intros H. unfold errorMessage_of, try_catch, bind, await. rewrite H. reflexivity. Qed.

Lemma errorMessage_of_resolved response v s :
  json response = Resolved v ->
  errorMessage_of response s =
  (Normal (js_or (js_or (property v "message") (property v "error"))
                 (JStr (error_status response))), s, []).
Proof.
  intros H. unfold errorMessage_of, try_catch, bind, await. rewrite H.
  destruct v; try reflexivity.
  unfold member, ret, js_or.
  set (m := property _ "message"). set (e := property _ "error").
  destruct (js_truthy m) eqn:T; [rewrite T|]; reflexivity.
Qed.

Lemma errorMessage_of_total response s :
  exists x, errorMessage_of response s = (Normal x, s, []).
Proof.
  destruct (json response) as [e|v] eqn:E.
  - eexists. apply (errorMessage_of_rejected _ _ _ E).
  - eexists. apply (errorMessage_of_resolved _ _ _ E).
Qed.

Lemma resume_rejected e s :
  handleUpload_resume (Rejected e) s =
  (Normal tt,
   {| fileList := fileList s; uploading := false; imageUrl := imageUrl s;
      result := JNull; error := Some (err_message e) |}, []).
Proof. reflexivity. Qed.

Lemma resume_not_ok response x s :
  ok response = false ->
  errorMessage_of response s = (Normal x, s, []) ->
  handleUpload_resume (Resolved response) s =
  (Normal tt,
   {| fileList := fileList s; uploading := false; imageUrl := imageUrl s;
      result := JNull; error := Some (thrown_message x) |}, []).
Proof.
  intros Hok Hx. unfold handleUpload_resume, try_finally, try_catch, bind, await.
  cbn. rewrite Hok. cbn. rewrite Hx.
  unfold new_Error, thrown_message, throw.
  destruct (js_to_string x); reflexivity.
Qed.

Lemma resume_ok_parsed response v s :
  ok response = true -> json response = Resolved v ->
  handleUpload_resume (Resolved response) s =
  (Normal tt,
   {| fileList := fileList s; uploading := false; imageUrl := imageUrl s;
      result := v; error := error s |}, []).
Proof.
  intros Hok Hv. unfold handleUpload_resume, try_finally, try_catch, bind, await.
  cbn. rewrite Hok, Hv. reflexivity.
Qed.

Lemma resume_ok_unparseable response e s :
  ok response = true -> json response = Rejected e ->
  handleUpload_resume (Resolved response) s =
  (Normal tt,
   {| fileList := fileList s; uploading := false; imageUrl := imageUrl s;
      result := JNull; error := Some (err_message e) |}, []).
Proof.
  intros Hok Hv. unfold handleUpload_resume, try_finally, try_catch, bind, await.
  cbn. rewrite Hok, Hv. reflexivity.
Qed.

(** Every settling ends in one of two shapes: a stored result with the
    error cell untouched, or a stored message with the result cleared.
    Either way [uploading] is false, the handler completes normally and
    emits nothing. *)
Lemma resume_shape fetched s :
  exists r e,
    handleUpload_resume fetched s =
    (Normal tt,
     {| fileList := fileList s; uploading := false; imageUrl := imageUrl s;
        result := r; error := e |}, [])
    /\ (e = error s \/ (r = JNull /\ exists text, e = Some text)).
Proof.
  destruct fetched as [e|response].
  - do 2 eexists. split; [apply resume_rejected|]. right. eauto.
  - destruct (ok response) eqn:Hok.
    + destruct (json response) as [e|v] eqn:Hv.
      * do 2 eexists. split; [apply (resume_ok_unparseable _ _ _ Hok Hv)|]. right. eauto.
      * do 2 eexists. split; [apply (resume_ok_parsed _ _ _ Hok Hv)|]. left. reflexivity.
    + destruct (errorMessage_of_total response s) as [x Hx].
      do 2 eexists. split; [apply (resume_not_ok _ _ _ Hok Hx)|]. right. eauto.
Qed.

Lemma handleUpload_submits fetched s blob :
  selected_blob s = Some blob ->
  handleUpload fetched s =
  (let started := {| fileList := fileList s; uploading := true; imageUrl := imageUrl s;
                     result := result s; error := None |} in
   (Normal tt, state_of (handleUpload_resume fetched started),
    [fetch "/api/analyze" "POST" [("image", FormBlob blob)]])).
Proof.
  intros H. unfold handleUpload, bind. rewrite (handleUpload_start_blob _ _ H).
  cbn zeta. destruct (resume_shape fetched
    {| fileList := fileList s; uploading := true; imageUrl := imageUrl s;
       result := result s; error := None |}) as (r & e & -> & _).
  reflexivity.
Qed.

(** ** The transition system *)

Lemma onRemove_run s :
  onRemove s =
  (Normal tt,
   {| fileList := []; uploading := uploading s; imageUrl := None;
      result := result s; error := None |}, []).
Proof. reflexivity. Qed.

Lemma handleUpload_start_no_blob s :
  selected_blob s = None ->
  exists text, handleUpload_start s = (Normal None, s, [message_error text]).
Proof.
  unfold selected_blob. intros H.
  destruct (fileList s) as [|file rest] eqn:E.
  - eexists. apply handleUpload_start_empty, E.
  - eexists. apply (handleUpload_start_not_blob _ _ _ E).
    intros blob Hb. rewrite Hb in H. discriminate.
Qed.

Lemma beforeUpload_state file objectUrl s :
  state_of (beforeUpload file objectUrl s) = s
  \/ state_of (beforeUpload file objectUrl s) =
     {| fileList := [upload_entry file objectUrl]; uploading := uploading s;
        imageUrl := imageUrl s; result := result s; error := None |}.
Proof.
  destruct (isJpgOrPng file) eqn:T.
  - destruct (isUnderSizeLimit file) eqn:L.
    + right. rewrite (beforeUpload_accepts _ _ _ T L). reflexivity.
    + left. rewrite (beforeUpload_too_large _ _ _ T L). reflexivity.
  - left. rewrite (beforeUpload_wrong_type _ _ _ T). reflexivity.
Qed.

Lemma Inv_initial : Inv initial_config.
Proof. constructor; cbn; auto; congruence. Qed.

Lemma Inv_step c ev c' : Inv c -> step c ev = Some c' -> Inv c'.
Proof.
  intros [Hf Hu He Hl] Hstep. destruct c as [s n]. cbn in *.
  destruct ev as [file objectUrl| |dataUrl| |fetched];
    unfold step in Hstep; cbn [state in_flight] in Hstep.
  - injection Hstep as <-.
    destruct (beforeUpload_state file objectUrl s) as [-> | ->];
      constructor; cbn; auto; congruence.
  - injection Hstep as <-. constructor; cbn; auto; congruence.
  - injection Hstep as <-. constructor; cbn; auto.
  - destruct (clickable s) eqn:Hc; [|discriminate].
    unfold clickable in Hc. apply andb_true_iff in Hc as [_ Hup].
    apply negb_true_iff in Hup. rewrite Hup in Hf.
    destruct (selected_blob s) as [blob|] eqn:Hb.
    + rewrite (handleUpload_start_blob _ _ Hb) in Hstep.
      injection Hstep as <-. constructor; cbn; auto; try congruence.
    + destruct (handleUpload_start_no_blob _ Hb) as [text Hs].
      rewrite Hs in Hstep. injection Hstep as <-.
      constructor; cbn; auto. rewrite Hup. exact Hf.
  - destruct n as [|n]; [discriminate|]. injection Hstep as <-.
    destruct (uploading s) eqn:Hup; [|discriminate].
    injection Hf as ->. specialize (Hu eq_refl).
    destruct (resume_shape fetched s) as (r & e & -> & Hre).
    constructor; cbn; auto; try discriminate.
    intros Hne. destruct Hre as [-> | [-> _]]; [congruence | reflexivity].
Qed.

Lemma Reachable_Inv c : Reachable c -> Inv c.
Proof.
  induction 1 as [|c ev c' _ IH Hstep].
  - exact Inv_initial.
  - exact (Inv_step _ _ _ IH Hstep).
Qed.

Lemma run_Reachable evs : forall c c', Reachable c -> run c evs = Some c' -> Reachable c'.
Proof.
  induction evs as [|ev rest IH]; intros c c' Hc Hrun; cbn in Hrun.
  - injection Hrun as <-. exact Hc.
  - destruct (step c ev) as [c1|] eqn:Hstep; [|discriminate].
    exact (IH _ _ (reach_step _ _ _ Hc Hstep) Hrun).
Qed.

(** ** Rendering *)

Lemma render_without_result s :
  js_truthy (result s) = false ->
  render s =
  (Normal
     {| upload_list := fileList s;
        upload_button :=
          if (1 <=? length (fileList s))%nat then None
          else Some (if uploading s then LoadingOutlined else UploadOutlined);
        analyze_disabled := (length (fileList s) =? 0)%nat;
        analyze_loading := uploading s;
        analyze_label := if uploading s then "Analyzing..." else "Analyze Food";
        error_section := when_string (error s) (fun text => text);
        results_section := None |}, s, []).
Proof. intros H. unfold render, bind, get_state. rewrite H. reflexivity. Qed.

Lemma render_error_section s view :
  completion_of (render s) = Normal view ->
  error_section view = when_string (error s) (fun text => text).
Proof.
  unfold render, bind, get_state.
  destruct (js_truthy (result s)).
  - destruct (render_results (result s) (imageUrl s) s) as [[[section|e] s1] out];
      cbn; intros [= <-]; reflexivity.
  - cbn. intros [= <-]. reflexivity.
Qed.

Lemma render_results_section s view :
  completion_of (render s) = Normal view ->
  js_truthy (result s) = false -> results_section view = None.
Proof.
  intros H Hr. rewrite (render_without_result _ Hr) in H. cbn in H.
  injection H as <-. reflexivity.
Qed.

(** * The claims *)

(** ** Admission of a file *)

(** C1.  A file offered to the upload control is taken into the selection
    exactly when its MIME type is [image/jpeg] or [image/png] and its
    size is below 4 MiB (4 * 1024 * 1024 bytes).  An accepted file
    becomes the one entry of the selection, with its own [uid] and
    [name], status [done], the object URL, and the file object itself as
    [originFileObj] (it is what a submission would send); no message is
    shown.  The type is tested first: a file of another type gets the
    message [You can only upload JPG/PNG file!] whatever its size, a
    file of a right type that is too large gets
    [Image must be smaller than 4MB for serverless functions!].  A
    refused file raises exactly one message and leaves the state, hence
    the selection, as it was. *)
Theorem C1_admission_gate (file : RcFile) (objectUrl : string) (s : State) :
  let done := beforeUpload file objectUrl s in
  let right_type := type file = "image/jpeg" \/ type file = "image/png" in
  let small := (size file < 4 * 1024 * 1024)%N in
  (messages (effects_of done) = [] <-> right_type /\ small)
  /\ (right_type /\ small ->
      fileList (state_of done)
      = [ {| uid := rc_uid file; name := rc_name file; status := "done";
             url := objectUrl; originFileObj := Some (IsBlob file) |} ]
      /\ selected_blob (state_of done) = Some file
      /\ effects_of done = [readAsDataURL file; createObjectURL file])
  /\ (~ (right_type /\ small) ->
      state_of done = s /\ exists text, effects_of done = [message_error text])
  /\ (~ right_type ->
      effects_of done = [message_error "You can only upload JPG/PNG file!"])
  /\ (right_type -> ~ small ->
      effects_of done
      = [message_error "Image must be smaller than 4MB for serverless functions!"]).
Proof.
  cbn zeta.
  rewrite <- isJpgOrPng_spec, <- isUnderSizeLimit_spec.
  destruct (isJpgOrPng file) eqn:T.
  - destruct (isUnderSizeLimit file) eqn:L.
    + rewrite (beforeUpload_accepts _ objectUrl s T L). cbn.
      intuition congruence.
    + rewrite (beforeUpload_too_large _ objectUrl s T L). cbn.
      intuition (try congruence); eauto.
  - rewrite (beforeUpload_wrong_type _ objectUrl s T). cbn.
    intuition (try congruence); eauto.
Qed.

(** A PNG of 2048 bytes is selected as it is; a JPEG of exactly 4 MiB is
    refused with the size message; a PDF is refused with the type
    message. *)
Lemma C1_admission_gate_witness :
  (fileList (state_of (beforeUpload apple_png "blob:apple" initial_state))
   = [ {| uid := "rc-upload-1"; name := "apple.png"; status := "done";
          url := "blob:apple"; originFileObj := Some (IsBlob apple_png) |} ]
   /\ selected_blob (state_of (beforeUpload apple_png "blob:apple" initial_state))
      = Some apple_png
   /\ effects_of (beforeUpload apple_png "blob:apple" initial_state)
      = [readAsDataURL apple_png; createObjectURL apple_png])
  /\ effects_of (beforeUpload large_jpeg "blob:feast" initial_state)
     = [message_error "Image must be smaller than 4MB for serverless functions!"]
  /\ effects_of (beforeUpload notes_pdf "blob:notes" initial_state)
     = [message_error "You can only upload JPG/PNG file!"].
Proof.
  split; [|split].
  - apply (C1_admission_gate apple_png "blob:apple" initial_state).
    split; [right; reflexivity | reflexivity].
  - apply (C1_admission_gate large_jpeg "blob:feast" initial_state).
    + left; reflexivity.
    + intros H. discriminate H.
  - apply (C1_admission_gate notes_pdf "blob:notes" initial_state).
    intros [H | H]; discriminate H.
Defined.

(** C9.  Accepting a valid file replaces whatever was selected by the new
    file alone (the selection then holds exactly that one file, which is
    what a following submission sends), clears the error cell and keeps
    the stored result.  The stored result is kept by every event other
    than the settling of a submission, and in every reachable
    configuration the selection holds at most one file. *)
Theorem C9_new_selection_replaces :
  (forall (file : RcFile) (objectUrl : string) (s : State),
      isJpgOrPng file = true ->
      isUnderSizeLimit file = true ->
      let s' := state_of (beforeUpload file objectUrl s) in
      fileList s' = [upload_entry file objectUrl]
      /\ selected_blob s' = Some file
      /\ error s' = None
      /\ result s' = result s)
  /\ (forall c ev c',
         step c ev = Some c' ->
         (forall fetched, ev <> FetchSettled fetched) ->
         result (state c') = result (state c))
  /\ (forall c, Reachable c -> (length (fileList (state c)) <= 1)%nat).
Proof.
  split; [|split].
  - intros file objectUrl s T L. cbn zeta.
    rewrite (beforeUpload_accepts _ objectUrl s T L). cbn. repeat split.
  - intros [s n] ev c' Hstep Hev.
    destruct ev as [file objectUrl| |dataUrl| |fetched];
      unfold step in Hstep; cbn [state in_flight] in Hstep.
    + injection Hstep as <-. cbn.
      destruct (beforeUpload_state file objectUrl s) as [-> | ->]; reflexivity.
    + injection Hstep as <-. reflexivity.
    + injection Hstep as <-. reflexivity.
    + destruct (clickable s); [|discriminate].
      destruct (selected_blob s) as [blob|] eqn:Hb.
      * rewrite (handleUpload_start_blob _ _ Hb) in Hstep.
        injection Hstep as <-. reflexivity.
      * destruct (handleUpload_start_no_blob _ Hb) as [text Hs].
        rewrite Hs in Hstep. injection Hstep as <-. reflexivity.
    + exfalso. exact (Hev fetched eq_refl).
  - intros c Hc. exact (inv_one_file _ (Reachable_Inv _ Hc)).
Qed.

(** With a result on screen, an error stored and another file selected,
    choosing [apple_png] leaves [apple_png] alone in the selection. *)
Lemma C9_new_selection_replaces_witness :
  let before :=
    {| fileList := [upload_entry large_jpeg "blob:feast"]; uploading := false;
       imageUrl := None; result := AnalysisResult.to_js apple;
       error := Some "Error 500" |} in
  let after := state_of (beforeUpload apple_png "blob:apple" before) in
  fileList after = [upload_entry apple_png "blob:apple"]
  /\ selected_blob after = Some apple_png
  /\ error after = None
  /\ result after = AnalysisResult.to_js apple.
Proof.
  cbn zeta.
  apply (proj1 C9_new_selection_replaces apple_png "blob:apple"); reflexivity.
Defined.

(** ** Submission: the guards and the request *)

(** C2.  With nothing selected, [handleUpload] shows the message
    [Please select an image first!], changes no state and issues no
    request, whatever the network would have answered.  In particular a
    submission that follows the refusal of a file of a wrong type on an
    empty selection issues no request. *)
Theorem C2_empty_selection_no_request :
  (forall (fetched : Settled Response) (s : State),
      fileList s = [] ->
      handleUpload fetched s
      = (Normal tt, s, [message_error "Please select an image first!"])
      /\ requests (effects_of (handleUpload fetched s)) = [])
  /\ (forall (fetched : Settled Response) (file : RcFile) (objectUrl : string) (s : State),
         fileList s = [] ->
         isJpgOrPng file = false ->
         requests (effects_of (handleUpload fetched
                                 (state_of (beforeUpload file objectUrl s)))) = []).
Proof.
  assert (H : forall fetched s, fileList s = [] ->
            handleUpload fetched s
            = (Normal tt, s, [message_error "Please select an image first!"])).
  { intros fetched s E. unfold handleUpload, bind.
    rewrite (handleUpload_start_empty _ E). reflexivity. }
  split.
  - intros fetched s E. rewrite (H fetched s E). split; reflexivity.
  - intros fetched file objectUrl s E T.
    rewrite (beforeUpload_wrong_type _ objectUrl s T). cbn [state_of fst snd].
    rewrite (H fetched s E). reflexivity.
Qed.

Lemma C2_empty_selection_no_request_witness :
  requests (effects_of (handleUpload (respond 200 (AnalysisResult.to_js apple))
                          initial_state)) = []
  /\ requests (effects_of (handleUpload (respond 200 (AnalysisResult.to_js apple))
                             (state_of (beforeUpload notes_pdf "blob:notes"
                                          initial_state)))) = [].
Proof.
  split.
  - apply (proj1 C2_empty_selection_no_request). reflexivity.
  - apply (proj2 C2_empty_selection_no_request); reflexivity.
Defined.

(** C3.  With a Blob selected, one invocation of [handleUpload] issues
    exactly one request, whatever the answer: a POST to [/api/analyze]
    whose form has the single field [image] holding the selected file
    object itself.  After a file was accepted by [beforeUpload] that
    object is the offered file, bytes included, and the data URL the
    reader produced for the preview has no part in the request. *)
Theorem C3_one_post_with_original_file :
  (forall (fetched : Settled Response) (s : State) (blob : RcFile),
      selected_blob s = Some blob ->
      requests (effects_of (handleUpload fetched s))
      = [fetch "/api/analyze" "POST" [("image", FormBlob blob)]])
  /\ (forall (fetched : Settled Response) (file : RcFile) (objectUrl dataUrl : string)
             (s : State),
         isJpgOrPng file = true ->
         isUnderSizeLimit file = true ->
         requests (effects_of
                     (handleUpload fetched
                        (state_of (reader_onload dataUrl
                                     (state_of (beforeUpload file objectUrl s))))))
         = [fetch "/api/analyze" "POST" [("image", FormBlob file)]]).
Proof.
  assert (H : forall fetched s blob, selected_blob s = Some blob ->
            requests (effects_of (handleUpload fetched s))
            = [fetch "/api/analyze" "POST" [("image", FormBlob blob)]]).
  { intros fetched s blob Hb. rewrite (handleUpload_submits fetched _ _ Hb).
    reflexivity. }
  split; [exact H|].
  intros fetched file objectUrl dataUrl s T L. apply H.
  rewrite (beforeUpload_accepts _ objectUrl s T L). reflexivity.
Qed.

Lemma C3_one_post_with_original_file_witness :
  requests (effects_of (handleUpload (Rejected {| err_message := "Failed to fetch" |})
                          (state_of (reader_onload "data:image/png;base64,iVBORw=="
                                       ready))))
  = [fetch "/api/analyze" "POST" [("image", FormBlob apple_png)]].
Proof.
  apply (proj2 C3_one_post_with_original_file); reflexivity.
Defined.

(** C10.  When the first selected entry carries no Blob (the property is
    missing or holds something else), [handleUpload] shows the message
    [Invalid file object] and returns: no request is issued and the
    state is left as it was, so [uploading], the result and the error
    keep their values, [uploading] staying false when it was. *)
Theorem C10_invalid_file_object
  (fetched : Settled Response) (s : State) (file : UploadFile) (rest : list UploadFile) :
  fileList s = file :: rest ->
  (forall blob, originFileObj file <> Some (IsBlob blob)) ->
  handleUpload fetched s = (Normal tt, s, [message_error "Invalid file object"])
  /\ requests (effects_of (handleUpload fetched s)) = []
  /\ (uploading s = false -> uploading (state_of (handleUpload fetched s)) = false).
Proof.
  intros E Hn.
  assert (H : handleUpload fetched s
              = (Normal tt, s, [message_error "Invalid file object"])).
  { unfold handleUpload, bind.
    rewrite (handleUpload_start_not_blob _ _ _ E Hn). reflexivity. }
  rewrite H. repeat split. intros Hu. exact Hu.
Qed.

Lemma C10_invalid_file_object_witness :
  let entry :=
    {| uid := "rc-upload-9"; name := "ghost.png"; status := "done";
       url := "blob:ghost"; originFileObj := Some (NotBlob "plain object") |} in
  let s :=
    {| fileList := [entry]; uploading := false; imageUrl := None;
       result := AnalysisResult.to_js apple; error := Some "Error 500" |} in
  handleUpload (respond 200 JNull) s
  = (Normal tt, s, [message_error "Invalid file object"])
  /\ requests (effects_of (handleUpload (respond 200 JNull) s)) = []
  /\ (uploading s = false ->
      uploading (state_of (handleUpload (respond 200 JNull) s)) = false).
Proof.
  cbn zeta.
  eapply (C10_invalid_file_object _ _ _ []); [reflexivity|].
  intros blob H. discriminate H.
Defined.

(** ** Submission: the outcome *)

(** C4.  [uploading] starts false.  Once the request was answered, in
    whatever way (a stored result, a non-success status, a rejected
    [fetch], a body that does not parse), it is false; so it is false
    after every whole invocation that sent a request, and after every
    invocation at all when it was false before (the two early returns do
    not write it).  Consequently, in every reachable configuration with
    no request in flight, [uploading] is false. *)
Theorem C4_uploading_always_reset :
  uploading initial_state = false
  /\ (forall (fetched : Settled Response) (s : State),
         uploading (state_of (handleUpload_resume fetched s)) = false)
  /\ (forall (fetched : Settled Response) (s : State) (blob : RcFile),
         selected_blob s = Some blob ->
         uploading (state_of (handleUpload fetched s)) = false)
  /\ (forall (fetched : Settled Response) (s : State),
         uploading s = false ->
         uploading (state_of (handleUpload fetched s)) = false)
  /\ (forall c, Reachable c -> in_flight c = 0%nat -> uploading (state c) = false).
Proof.
  assert (R : forall fetched s,
             uploading (state_of (handleUpload_resume fetched s)) = false).
  { intros fetched s. destruct (resume_shape fetched s) as (r & e & -> & _).
    reflexivity. }
  assert (B : forall fetched s blob, selected_blob s = Some blob ->
             uploading (state_of (handleUpload fetched s)) = false).
  { intros fetched s blob Hb. rewrite (handleUpload_submits fetched _ _ Hb).
    cbn [state_of fst snd]. apply R. }
  repeat split.
  - exact R.
  - exact B.
  - intros fetched s Hu. destruct (selected_blob s) as [blob|] eqn:Hb.
    + exact (B fetched s blob Hb).
    + unfold handleUpload, bind.
      destruct (handleUpload_start_no_blob _ Hb) as [text ->]. exact Hu.
  - intros c Hc Hn. pose proof (inv_in_flight _ (Reachable_Inv _ Hc)) as Hf.
    destruct (uploading (state c)); [congruence | reflexivity].
Qed.

(** The flag is false after a success, a server error and a network
    failure of a submission of [apple_png]. *)
Lemma C4_uploading_always_reset_witness :
  uploading (state_of (handleUpload (respond 200 (AnalysisResult.to_js apple)) ready))
  = false
  /\ uploading (state_of (handleUpload (respond 503 (JStr "Service Unavailable")) ready))
     = false
  /\ uploading (state_of (handleUpload (Rejected {| err_message := "Failed to fetch" |})
                            ready)) = false.
Proof.
  split; [|split];
    apply (proj1 (proj2 (proj2 C4_uploading_always_reset)) _ ready apple_png);
    reflexivity.
Defined.

(** C6.  When the answer has status 200 and its body parses to a
    document of the [AnalysisResult] shape, the submission ends with that
    parsed document as the stored result and with no stored error.  This
    holds for a whole invocation from any state with a Blob selected,
    and for the settling of the request in any reachable configuration,
    whatever happened on the page while the request was in flight. *)
Theorem C6_success_stores_result (response : Response) (r : AnalysisResult.t) :
  response_status response = 200%N ->
  json response = Resolved (AnalysisResult.to_js r) ->
  (forall (s : State) (blob : RcFile),
      selected_blob s = Some blob ->
      let s' := state_of (handleUpload (Resolved response) s) in
      result s' = AnalysisResult.to_js r /\ error s' = None)
  /\ (forall c c',
         Reachable c ->
         step c (FetchSettled (Resolved response)) = Some c' ->
         result (state c') = AnalysisResult.to_js r /\ error (state c') = None).
Proof.
  intros Hs Hj.
  assert (Hok : ok response = true) by (unfold ok; rewrite Hs; reflexivity).
  split.
  - intros s blob Hb. cbn zeta. rewrite (handleUpload_submits _ _ _ Hb).
    cbn [state_of fst snd]. rewrite (resume_ok_parsed _ _ _ Hok Hj).
    split; reflexivity.
  - intros [s n] c' Hc Hstep. unfold step in Hstep. cbn [state in_flight] in Hstep.
    destruct n as [|n]; [discriminate|]. injection Hstep as <-.
    destruct (Reachable_Inv _ Hc) as [Hf Hu _ _]. cbn in Hf, Hu.
    destruct (uploading s); [|discriminate].
    cbn [state]. rewrite (resume_ok_parsed _ _ _ Hok Hj). cbn.
    split; [reflexivity | exact (Hu eq_refl)].
Qed.

Lemma C6_success_stores_result_witness :
  let s' := state_of (handleUpload (respond 200 (AnalysisResult.to_js apple)) ready) in
  result s' = AnalysisResult.to_js apple /\ error s' = None.
Proof.
  cbn zeta.
  apply (proj1 (C6_success_stores_result
                  {| response_status := 200; json := Resolved (AnalysisResult.to_js apple) |}
                  apple eq_refl eq_refl) ready apple_png).
  reflexivity.
Defined.

Lemma js_or_truthy a b : js_truthy a = true -> js_or a b = a.
Proof. unfold js_or. intros ->. reflexivity. Qed.

Lemma js_or_falsy a b : js_truthy a = false -> js_or a b = b.
Proof. unfold js_or. intros ->. reflexivity. Qed.

(** C5, as the claim states it, fails: a body whose [message] property
    is present but empty is passed over by [||].  For status 500 and the
    body [{message: (empty), error: "quota exceeded"}] the stored error
    is the [error] property, not the (available) [message] property. *)
Lemma C5_counterexample :
  let body := JObj [("message", JStr ""); ("error", JStr "quota exceeded")] in
  let response := {| response_status := 500; json := Resolved body |} in
  let s' := state_of (handleUpload (Resolved response) ready) in
  ok response = false
  /\ property body "message" = JStr ""
  /\ error s' = Some "quota exceeded"
  /\ error s' <> Some "".
Proof. cbn. repeat split. discriminate. Qed.

(** C5, amended.  For every answer with a non-success status the
    submission ends with the result cleared and with a stored error that
    is: the [message] property of the parsed body when that property is
    truthy (a non-empty string is stored as it is; another truthy value
    is stored as its ToString text or, when that conversion throws, as
    the message of the [TypeError] it throws); otherwise the [error]
    property under the same condition; otherwise, and also when the body
    does not parse, [Error <status>].  This holds for a whole invocation
    from any state with a Blob selected, and for the settling of the
    request in any reachable configuration, whatever happened on the
    page while the request was in flight. *)
Theorem C5_error_message_selection (response : Response) :
  ok response = false ->
  let stored := fun s' : State =>
    result s' = JNull
    /\ (forall v x, json response = Resolved v ->
                    property v "message" = x -> js_truthy x = true ->
                    (forall text, js_to_string x = Normal text -> error s' = Some text)
                    /\ (forall e, js_to_string x = Throw e ->
                                  error s' = Some (err_message e)))
    /\ (forall v x, json response = Resolved v ->
                    js_truthy (property v "message") = false ->
                    property v "error" = x -> js_truthy x = true ->
                    (forall text, js_to_string x = Normal text -> error s' = Some text)
                    /\ (forall e, js_to_string x = Throw e ->
                                  error s' = Some (err_message e)))
    /\ (forall v, json response = Resolved v ->
                  js_truthy (property v "message") = false ->
                  js_truthy (property v "error") = false ->
                  error s' = Some ("Error " ++ decimal (response_status response)))
    /\ (forall e, json response = Rejected e ->
                  error s' = Some ("Error " ++ decimal (response_status response))) in
  (forall (s : State) (blob : RcFile),
      selected_blob s = Some blob ->
      stored (state_of (handleUpload (Resolved response) s)))
  /\ (forall c c',
         Reachable c ->
         step c (FetchSettled (Resolved response)) = Some c' ->
         stored (state c')).
Proof.
  intros Hok stored.
  assert (H : forall s0, stored (state_of (handleUpload_resume (Resolved response) s0))).
  { intros s0. subst stored. cbn beta.
    destruct (errorMessage_of_total response s0) as [x0 Hx0].
    split; [rewrite (resume_not_ok _ _ _ Hok Hx0); reflexivity|].
    split; [|split; [|split]].
    - intros v x Hj Hm Ht. subst x.
      rewrite (resume_not_ok _ _ _ Hok (errorMessage_of_resolved _ _ s0 Hj)).
      rewrite (js_or_truthy _ (property v "error") Ht), (js_or_truthy _ _ Ht).
      cbn [state_of fst snd error]. unfold thrown_message.
      split; intros t Hs; rewrite Hs; reflexivity.
    - intros v x Hj Hm He Ht. subst x.
      rewrite (resume_not_ok _ _ _ Hok (errorMessage_of_resolved _ _ s0 Hj)).
      rewrite (js_or_falsy _ (property v "error") Hm), (js_or_truthy _ _ Ht).
      cbn [state_of fst snd error]. unfold thrown_message.
      split; intros t Hs; rewrite Hs; reflexivity.
    - intros v Hj Hm He.
      rewrite (resume_not_ok _ _ _ Hok (errorMessage_of_resolved _ _ s0 Hj)).
      rewrite (js_or_falsy _ (property v "error") Hm), (js_or_falsy _ _ He).
      reflexivity.
    - intros e Hj.
      rewrite (resume_not_ok _ _ _ Hok (errorMessage_of_rejected _ _ s0 Hj)).
      reflexivity. }
  split.
  - intros s blob Hb. rewrite (handleUpload_submits _ _ _ Hb).
    cbn [state_of fst snd]. apply H.
  - intros [s n] c' _ Hstep. unfold step in Hstep. cbn [state in_flight] in Hstep.
    destruct n as [|n]; [discriminate|]. injection Hstep as <-. cbn [state]. apply H.
Qed.

(** The two examples of the specification: the body
    [{message: "no food detected"}] gives exactly that text, a body that
    does not parse gives [Error 502].  And a [message] that cannot be
    printed: the [TypeError] is what the user reads. *)
Lemma C5_error_message_selection_witness :
  error (state_of (handleUpload
                     (respond 422 (JObj [("message", JStr "no food detected")])) ready))
  = Some "no food detected"
  /\ error (state_of (handleUpload
                        (Resolved {| response_status := 502;
                                     json := Rejected {| err_message :=
                                       "Unexpected token < in JSON at position 0" |} |})
                        ready))
     = Some "Error 502"
  /\ error (state_of (handleUpload
                        (respond 500 (JObj [("message", JObj [("toString", JNum "1")])]))
                        ready))
     = Some "Cannot convert object to primitive value".
Proof.
  split; [|split].
  - apply (proj1 (proj1 (proj2 (proj1 (C5_error_message_selection
                           {| response_status := 422;
                              json := Resolved (JObj [("message", JStr "no food detected")]) |}
                           eq_refl) ready apple_png eq_refl))
             (JObj [("message", JStr "no food detected")]) (JStr "no food detected")
             eq_refl eq_refl eq_refl));
      reflexivity.
  - apply (proj2 (proj2 (proj2 (proj2 (proj1 (C5_error_message_selection
                           {| response_status := 502;
                              json := Rejected {| err_message :=
                                "Unexpected token < in JSON at position 0" |} |}
                           eq_refl) ready apple_png eq_refl))))
             {| err_message := "Unexpected token < in JSON at position 0" |}).
    reflexivity.
  - apply (proj2 (proj1 (proj2 (proj1 (C5_error_message_selection
                           {| response_status := 500;
                              json := Resolved
                                        (JObj [("message", JObj [("toString", JNum "1")])]) |}
                           eq_refl) ready apple_png eq_refl))
             (JObj [("message", JObj [("toString", JNum "1")])])
             (JObj [("toString", JNum "1")])
             eq_refl eq_refl eq_refl)
             TypeError_to_primitive).
    reflexivity.
Defined.

(** ** Rendering *)

(** The four statistics of the nutrition block. *)
Lemma render_nutrition_facts (n : NutritionInfo.t) s :
  NutritionInfo.error n = None \/ NutritionInfo.error n = Some "" ->
  render_nutrition (NutritionInfo.to_js n) s
  = (Normal (NutritionFacts (JStr (NutritionInfo.name n))
               [ {| title := "Calories"; value := JNum (NutritionInfo.calories n);
                    suffix := "kcal" |};
                 {| title := "Protein"; value := JNum (NutritionInfo.protein n);
                    suffix := "g" |};
                 {| title := "Carbs"; value := JNum (NutritionInfo.carbs n);
                    suffix := "g" |};
                 {| title := "Fats"; value := JNum (NutritionInfo.fats n);
                    suffix := "g" |} ]), s, []).
Proof.
  unfold NutritionInfo.to_js. intros [-> | ->]; reflexivity.
Qed.

Lemma render_nutrition_error (n : NutritionInfo.t) (e : string) s :
  NutritionInfo.error n = Some e -> e <> "" ->
  render_nutrition (NutritionInfo.to_js n) s = (Normal (NutritionError (JStr e)), s, []).
Proof.
  unfold NutritionInfo.to_js. intros -> He.
  apply String.eqb_neq in He.
  unfold render_nutrition, bind, member, ret. cbn. rewrite He. reflexivity.
Qed.

Lemma render_analysis (r : AnalysisResult.t) (item : NutritionItem) s :
  result s = AnalysisResult.to_js r ->
  (forall s0, render_nutrition (NutritionInfo.to_js (AnalysisResult.nutrition_info r)) s0
              = (Normal item, s0, [])) ->
  exists view,
    render s = (Normal view, s, [])
    /\ results_section view
       = Some {| detected_foods := JArr (map JStr (AnalysisResult.detected_food r));
                 main_ingredient := JStr (AnalysisResult.main_ingredient r);
                 nutrition := item;
                 healthier_alternative := JStr (AnalysisResult.healthier_alternative r);
                 food_image := when_string (imageUrl s) (fun u => u) |}.
Proof.
  intros Hr Hn.
  assert (Hsec : render_results (AnalysisResult.to_js r) (imageUrl s) s
                 = (Normal
                      {| detected_foods := JArr (map JStr (AnalysisResult.detected_food r));
                         main_ingredient := JStr (AnalysisResult.main_ingredient r);
                         nutrition := item;
                         healthier_alternative :=
                           JStr (AnalysisResult.healthier_alternative r);
                         food_image := when_string (imageUrl s) (fun u => u) |}, s, [])).
  { unfold render_results.
    change (member (AnalysisResult.to_js r) "detected_food")
      with (@ret JsVal (JArr (map JStr (AnalysisResult.detected_food r)))).
    change (member (AnalysisResult.to_js r) "main_ingredient")
      with (@ret JsVal (JStr (AnalysisResult.main_ingredient r))).
    change (member (AnalysisResult.to_js r) "nutrition_info")
      with (@ret JsVal (NutritionInfo.to_js (AnalysisResult.nutrition_info r))).
    change (member (AnalysisResult.to_js r) "healthier_alternative")
      with (@ret JsVal (JStr (AnalysisResult.healthier_alternative r))).
    unfold bind, ret. rewrite Hn. reflexivity. }
  unfold render, bind, get_state. rewrite Hr.
  change (js_truthy (AnalysisResult.to_js r)) with true. cbv beta iota.
  rewrite Hsec. eexists. split; reflexivity.
Qed.

(** C7, as the claim states it, fails: an [error] property that is set
    to the empty string is falsy, and the four numbers are shown. *)
Lemma C7_counterexample :
  let s := state_of (handleUpload (respond 200 (AnalysisResult.to_js apple_blank_error))
                       ready) in
  NutritionInfo.error (AnalysisResult.nutrition_info apple_blank_error) = Some ""
  /\ exists view section,
       render s = (Normal view, s, [])
       /\ results_section view = Some section
       /\ nutrition section
          = NutritionFacts (JStr "Apple")
              [ {| title := "Calories"; value := JNum "95"; suffix := "kcal" |};
                {| title := "Protein"; value := JNum "0.5"; suffix := "g" |};
                {| title := "Carbs"; value := JNum "25"; suffix := "g" |};
                {| title := "Fats"; value := JNum "0.3"; suffix := "g" |} ]
       /\ nutrition section <> NutritionError (JStr "").
Proof.
  cbn zeta. split; [reflexivity|].
  do 2 eexists. split; [reflexivity|]. split; [reflexivity|].
  split; [reflexivity | discriminate].
Qed.

(** C7, amended.  For every stored document of the [AnalysisResult]
    shape the results section is rendered, and its nutrition block is:
    the text of [nutrition_info.error] alone when that property is set
    and not empty; otherwise (absent, or the empty string) the name
    followed by the four numbers [calories], [protein], [carbs], [fats]
    with the suffixes [kcal], [g], [g], [g]. *)
Theorem C7_nutrition_block (r : AnalysisResult.t) (s : State) :
  result s = AnalysisResult.to_js r ->
  let n := AnalysisResult.nutrition_info r in
  exists view section,
    render s = (Normal view, s, [])
    /\ results_section view = Some section
    /\ (forall e, NutritionInfo.error n = Some e -> e <> "" ->
                  nutrition section = NutritionError (JStr e))
    /\ (NutritionInfo.error n = None \/ NutritionInfo.error n = Some "" ->
        nutrition section
        = NutritionFacts (JStr (NutritionInfo.name n))
            [ {| title := "Calories"; value := JNum (NutritionInfo.calories n);
                 suffix := "kcal" |};
              {| title := "Protein"; value := JNum (NutritionInfo.protein n);
                 suffix := "g" |};
              {| title := "Carbs"; value := JNum (NutritionInfo.carbs n);
                 suffix := "g" |};
              {| title := "Fats"; value := JNum (NutritionInfo.fats n);
                 suffix := "g" |} ]).
Proof.
  intros Hr. cbn zeta.
  set (n := AnalysisResult.nutrition_info r).
  assert (Hcases : (exists e, NutritionInfo.error n = Some e /\ e <> "")
                   \/ (NutritionInfo.error n = None \/ NutritionInfo.error n = Some "")).
  { destruct (NutritionInfo.error n) as [e|]; [|auto].
    destruct (string_dec e "") as [-> | He]; eauto. }
  destruct Hcases as [(e & He & Hne) | Hfacts].
  - destruct (render_analysis r _ s Hr
                (fun s0 => render_nutrition_error n e s0 He Hne)) as (view & Hv & Hs).
    exists view. eexists. split; [exact Hv|]. split; [exact Hs|]. cbn. split.
    + intros e' He' _. congruence.
    + intros [H | H]; congruence.
  - destruct (render_analysis r _ s Hr
                (fun s0 => render_nutrition_facts n s0 Hfacts)) as (view & Hv & Hs).
    exists view. eexists. split; [exact Hv|]. split; [exact Hs|]. cbn. split.
    + intros e He Hne. destruct Hfacts as [H | H]; congruence.
    + intros _. reflexivity.
Qed.

Lemma C7_nutrition_block_witness :
  let s := state_of (handleUpload (respond 200 (AnalysisResult.to_js unknown_dish))
                       ready) in
  exists view section,
    render s = (Normal view, s, [])
    /\ results_section view = Some section
    /\ nutrition section = NutritionError (JStr "No nutrition data found").
Proof.
  cbn zeta.
  destruct (C7_nutrition_block unknown_dish
              (state_of (handleUpload (respond 200 (AnalysisResult.to_js unknown_dish))
                           ready)) eq_refl)
    as (view & section & Hv & Hs & He & _).
  exists view, section. split; [exact Hv|]. split; [exact Hs|].
  apply He; [reflexivity | discriminate].
Defined.

(** C8, as the claim states it, fails: an error can be stored (non-null)
    and yet not be shown, because the stored text is empty.  A server
    answering 500 with the body [{message: []}] makes [errorMessage] the
    empty array, [new Error] turns it into the empty text, and
    [error && ...] renders nothing for it. *)
Lemma C8_counterexample :
  exists c view,
    run initial_config
        [SelectFile apple_png "blob:apple"; ClickAnalyze;
         FetchSettled (respond 500 (JObj [("message", JArr [])]))] = Some c
    /\ Reachable c
    /\ error (state c) = Some ""
    /\ render (state c) = (Normal view, state c, [])
    /\ error_section view = None.
Proof.
  do 2 eexists. split; [reflexivity|]. split.
  - apply (run_Reachable
             [SelectFile apple_png "blob:apple"; ClickAnalyze;
              FetchSettled (respond 500 (JObj [("message", JArr [])]))]
             initial_config); [apply reach_initial | reflexivity].
  - repeat split.
Qed.

(** C8, amended.  In every reachable configuration with a stored error,
    the page renders, no results section is rendered, and the error
    section is rendered exactly when the stored text is not empty (it
    then shows that text).  Hence no reachable configuration renders an
    error section and a results section together. *)
Theorem C8_error_excludes_results (c : Config) :
  Reachable c ->
  (forall text, error (state c) = Some text ->
     exists view,
       render (state c) = (Normal view, state c, [])
       /\ results_section view = None
       /\ error_section view = (if text =? "" then None else Some text))
  /\ (forall view, completion_of (render (state c)) = Normal view ->
        error_section view = None \/ results_section view = None).
Proof.
  intros Hc. pose proof (inv_error_clears_result _ (Reachable_Inv _ Hc)) as Hinv.
  split.
  - intros text He.
    assert (Hr : js_truthy (result (state c)) = false).
    { rewrite Hinv; [reflexivity | congruence]. }
    eexists. split; [apply (render_without_result _ Hr)|].
    cbn. rewrite He. split; reflexivity.
  - intros view Hv.
    destruct (error (state c)) as [text|] eqn:He.
    + right. apply (render_results_section _ _ Hv).
      rewrite Hinv; [reflexivity | congruence].
    + left. rewrite (render_error_section _ _ Hv), He. reflexivity.
Qed.

(** After a network failure the message is shown and nothing else. *)
Lemma C8_error_excludes_results_witness :
  exists c view,
    run initial_config
        [SelectFile apple_png "blob:apple"; ClickAnalyze;
         FetchSettled (Rejected {| err_message := "Failed to fetch" |})] = Some c
    /\ render (state c) = (Normal view, state c, [])
    /\ results_section view = None
    /\ error_section view = Some "Failed to fetch".
Proof.
  eexists.
  assert (Hc : Reachable
                 {| state := state_of (handleUpload
                                         (Rejected {| err_message := "Failed to fetch" |})
                                         ready);
                    in_flight := 0 |}).
  { apply (run_Reachable
             [SelectFile apple_png "blob:apple"; ClickAnalyze;
              FetchSettled (Rejected {| err_message := "Failed to fetch" |})]
             initial_config); [apply reach_initial | reflexivity]. }
  destruct (proj1 (C8_error_excludes_results _ Hc) "Failed to fetch" eq_refl)
    as (view & Hv & Hr & He).
  exists view. split; [reflexivity|]. split; [exact Hv|]. split; [exact Hr | exact He].
Defined.

(** * Further properties of the component *)

(** ** Removing the file *)

(** X1.  [onRemove] empties the selection and clears the preview and the
    error, writes neither the result nor [uploading], and emits nothing.
    From the state it leaves, the Analyze button is dead and a call of
    [handleUpload] sends no request and changes nothing. *)
Theorem onRemove_disarms_submission (fetched : Settled Response) (s : State) :
  let s' := state_of (onRemove s) in
  fileList s' = []
  /\ imageUrl s' = None
  /\ error s' = None
  /\ result s' = result s
  /\ uploading s' = uploading s
  /\ effects_of (onRemove s) = []
  /\ clickable s' = false
  /\ requests (effects_of (handleUpload fetched s')) = []
  /\ state_of (handleUpload fetched s') = s'.
Proof.
  cbn zeta. rewrite onRemove_run. cbn [state_of effects_of fst snd].
  set (s' := {| fileList := []; uploading := uploading s; imageUrl := None;
                result := result s; error := None |}).
  assert (H : handleUpload fetched s'
              = (Normal tt, s', [message_error "Please select an image first!"])).
  { unfold handleUpload, bind. rewrite (handleUpload_start_empty s' eq_refl).
    reflexivity. }
  rewrite H. cbn. tauto.
Qed.

(** ** Invariants of the page *)

(** X2.  At most one request is ever in flight, and [uploading] is true
    exactly while one is. *)
Theorem single_flight (c : Config) :
  Reachable c ->
  (in_flight c <= 1)%nat
  /\ (uploading (state c) = true <-> in_flight c = 1%nat).
Proof.
  intros Hc. pose proof (inv_in_flight _ (Reachable_Inv _ Hc)) as Hf.
  destruct (uploading (state c)); rewrite Hf; split; try lia;
    split; intros; congruence.
Qed.

Lemma single_flight_witness :
  let c := {| state := state_of (handleUpload_start ready); in_flight := 1 |} in
  (in_flight c <= 1)%nat /\ (uploading (state c) = true <-> in_flight c = 1%nat).
Proof.
  cbn zeta. apply single_flight.
  apply (run_Reachable [SelectFile apple_png "blob:apple"; ClickAnalyze] initial_config);
    [apply reach_initial | reflexivity].
Defined.

(** X3.  While a request is in flight no error is stored: whenever the
    page renders with [uploading] on, it shows the button as loading
    with the label [Analyzing...] and no error section. *)
Theorem no_error_while_uploading (c : Config) (view : View) :
  Reachable c ->
  uploading (state c) = true ->
  completion_of (render (state c)) = Normal view ->
  error (state c) = None
  /\ error_section view = None
  /\ analyze_loading view = true
  /\ analyze_label view = "Analyzing...".
Proof.
  intros Hc Hu Hv.
  pose proof (inv_no_error_in_flight _ (Reachable_Inv _ Hc) Hu) as He.
  split; [exact He|].
  split; [rewrite (render_error_section _ _ Hv), He; reflexivity|].
  revert Hv. unfold render, bind, get_state.
  destruct (js_truthy (result (state c))).
  - destruct (render_results _ _ _) as [[[section|e] s1] out];
      cbn; intros [= <-]; cbn; rewrite Hu; split; reflexivity.
  - cbn. intros [= <-]. cbn. rewrite Hu. split; reflexivity.
Qed.

Lemma no_error_while_uploading_witness :
  let s := state_of (handleUpload_start ready) in
  exists view,
    completion_of (render s) = Normal view
    /\ error s = None
    /\ error_section view = None
    /\ analyze_loading view = true
    /\ analyze_label view = "Analyzing...".
Proof.
  cbn zeta. eexists. split; [reflexivity|].
  apply (no_error_while_uploading
           {| state := state_of (handleUpload_start ready); in_flight := 1 |}).
  - apply (run_Reachable [SelectFile apple_png "blob:apple"; ClickAnalyze]
             initial_config); [apply reach_initial | reflexivity].
  - reflexivity.
  - reflexivity.
Defined.

Lemma selection_checked_step c ev c' :
  selection_checked (state c) -> step c ev = Some c' -> selection_checked (state c').
Proof.
  intros Hsel Hstep. destruct c as [s n].
  destruct ev as [file objectUrl| |dataUrl| |fetched];
    unfold step in Hstep; cbn [state in_flight] in *.
  - injection Hstep as <-. cbn [state].
    destruct (isJpgOrPng file) eqn:T.
    + destruct (isUnderSizeLimit file) eqn:L.
      * rewrite (beforeUpload_accepts _ objectUrl s T L). cbn.
        intros entry [<- | []]. exists file, objectUrl. split; [reflexivity|].
        unfold admissible. rewrite T, L. reflexivity.
      * rewrite (beforeUpload_too_large _ objectUrl s T L). exact Hsel.
    + rewrite (beforeUpload_wrong_type _ objectUrl s T). exact Hsel.
  - injection Hstep as <-. intros entry [].
  - injection Hstep as <-. exact Hsel.
  - destruct (clickable s); [|discriminate].
    destruct (selected_blob s) as [blob|] eqn:Hb.
    + rewrite (handleUpload_start_blob _ _ Hb) in Hstep.
      injection Hstep as <-. exact Hsel.
    + destruct (handleUpload_start_no_blob _ Hb) as [text Hs].
      rewrite Hs in Hstep. injection Hstep as <-. exact Hsel.
  - destruct n as [|n]; [discriminate|]. injection Hstep as <-.
    cbn [state]. destruct (resume_shape fetched s) as (r & e & -> & _). exact Hsel.
Qed.

Lemma Reachable_selection_checked c : Reachable c -> selection_checked (state c).
Proof.
  induction 1 as [|c ev c' _ IH Hstep].
  - intros entry [].
  - exact (selection_checked_step _ _ _ IH Hstep).
Qed.

(** X4.  Every file in the selection of a reachable configuration was
    built by [beforeUpload] from a file that passed both admission
    checks.  Hence, whenever the Analyze button answers a click, neither
    early return of [handleUpload] is taken: exactly one request is
    sent, it carries a file of an accepted type below 4 MiB, and the
    page is then uploading with one request in flight. *)
Theorem click_always_submits_checked_file (c c' : Config) :
  Reachable c ->
  step c ClickAnalyze = Some c' ->
  selection_checked (state c)
  /\ exists file,
       selected_blob (state c) = Some file
       /\ (type file = "image/jpeg" \/ type file = "image/png")
       /\ (size file < 4 * 1024 * 1024)%N
       /\ effects_of (handleUpload_start (state c))
          = [fetch "/api/analyze" "POST" [("image", FormBlob file)]]
       /\ uploading (state c') = true
       /\ in_flight c' = 1%nat.
Proof.
  intros Hc Hstep. pose proof (Reachable_selection_checked _ Hc) as Hsel.
  split; [exact Hsel|].
  pose proof (inv_in_flight _ (Reachable_Inv _ Hc)) as Hf.
  destruct c as [s n]. unfold step in Hstep. cbn [state in_flight] in *.
  destruct (clickable s) eqn:Hk; [|discriminate].
  unfold clickable in Hk. apply andb_true_iff in Hk as [Hne Hup].
  apply negb_true_iff in Hup. rewrite Hup in Hf. subst n.
  destruct (fileList s) as [|entry rest] eqn:E; [discriminate|].
  destruct (Hsel entry) as (file & objectUrl & -> & Hadm).
  { rewrite E. left. reflexivity. }
  assert (Hb : selected_blob s = Some file).
  { unfold selected_blob. rewrite E. reflexivity. }
  unfold admissible in Hadm. apply andb_true_iff in Hadm as [T L].
  exists file. rewrite (handleUpload_start_blob _ _ Hb) in *.
  injection Hstep as <-. cbn.
  split; [exact Hb|]. split; [apply isJpgOrPng_spec, T|].
  split; [apply isUnderSizeLimit_spec, L|]. repeat split.
Qed.

Lemma click_always_submits_checked_file_witness :
  exists file,
    selected_blob ready = Some file
    /\ (type file = "image/jpeg" \/ type file = "image/png")
    /\ (size file < 4 * 1024 * 1024)%N
    /\ effects_of (handleUpload_start ready)
       = [fetch "/api/analyze" "POST" [("image", FormBlob file)]].
Proof.
  destruct (click_always_submits_checked_file
              {| state := ready; in_flight := 0 |}
              {| state := state_of (handleUpload_start ready); in_flight := 1 |})
    as (_ & file & Hb & Ht & Hs & He & _).
  - apply (run_Reachable [SelectFile apple_png "blob:apple"] initial_config);
      [apply reach_initial | reflexivity].
  - reflexivity.
  - exists file. repeat split; assumption.
Defined.

(** ** More outcomes of a submission *)

(** X5.  When the request fails in transport ([fetch] rejects), or a
    success status comes with a body that does not parse, the message of
    the rejection is stored as the error, the result is cleared,
    [uploading] is reset, and the selection and the preview are left as
    they were. *)
Theorem rejection_message_is_stored (s : State) (blob : RcFile) (e : JsError) :
  selected_blob s = Some blob ->
  (forall fetched,
      fetched = Rejected e
      \/ (exists response,
             fetched = Resolved response
             /\ ok response = true /\ json response = Rejected e) ->
      let s' := state_of (handleUpload fetched s) in
      error s' = Some (err_message e)
      /\ result s' = JNull
      /\ uploading s' = false
      /\ fileList s' = fileList s
      /\ imageUrl s' = imageUrl s).
Proof.
  intros Hb fetched H. cbn zeta. rewrite (handleUpload_submits _ _ _ Hb).
  cbn [state_of fst snd].
  destruct H as [-> | (response & -> & Hok & Hj)].
  - rewrite resume_rejected. cbn. repeat split.
  - rewrite (resume_ok_unparseable _ _ _ Hok Hj). cbn. repeat split.
Qed.

Lemma rejection_message_is_stored_witness :
  let s' := state_of (handleUpload (Rejected {| err_message := "Failed to fetch" |})
                        ready) in
  error s' = Some "Failed to fetch"
  /\ result s' = JNull
  /\ uploading s' = false
  /\ fileList s' = fileList ready
  /\ imageUrl s' = imageUrl ready.
Proof.
  cbn zeta.
  apply (rejection_message_is_stored ready apple_png
           {| err_message := "Failed to fetch" |} eq_refl).
  left. reflexivity.
Defined.

(** X6.  Every status from 200 to 299 counts as success, and the parsed
    body is stored as it is, whatever JSON value it is: no check of its
    shape is made.  The error stays cleared and [uploading] is reset. *)
Theorem any_2xx_body_is_stored_unchecked
  (response : Response) (v : JsVal) (s : State) (blob : RcFile) :
  selected_blob s = Some blob ->
  (200 <= response_status response <= 299)%N ->
  json response = Resolved v ->
  let s' := state_of (handleUpload (Resolved response) s) in
  result s' = v /\ error s' = None /\ uploading s' = false.
Proof.
  intros Hb [Hlo Hhi] Hj. cbn zeta.
  assert (Hok : ok response = true).
  { unfold ok. apply andb_true_iff. split; apply N.leb_le; assumption. }
  rewrite (handleUpload_submits _ _ _ Hb). cbn [state_of fst snd].
  rewrite (resume_ok_parsed _ _ _ Hok Hj). cbn. repeat split.
Qed.

(** A 201 whose body is the bare string [created] is stored as result. *)
Lemma any_2xx_body_is_stored_unchecked_witness :
  let s' := state_of (handleUpload (respond 201 (JStr "created")) ready) in
  result s' = JStr "created" /\ error s' = None /\ uploading s' = false.
Proof.
  cbn zeta.
  apply (any_2xx_body_is_stored_unchecked
           {| response_status := 201; json := Resolved (JStr "created") |}
           (JStr "created") ready apple_png eq_refl).
  - split; discriminate.
  - reflexivity.
Defined.

(** ** The rendering function *)

Lemma member_defined v key :
  nullish v = false -> member v key = ret (property v key).
Proof. destruct v; try discriminate; reflexivity. Qed.

Lemma truthy_not_nullish v : js_truthy v = true -> nullish v = false.
Proof. destruct v; try discriminate; reflexivity. Qed.

Lemma render_nutrition_defined nutrition_info :
  nullish nutrition_info = false ->
  exists item, forall s, render_nutrition nutrition_info s = (Normal item, s, []).
Proof.
  intros H. unfold render_nutrition. rewrite !(member_defined _ _ H).
  unfold bind, ret.
  destruct (js_truthy (property nutrition_info "error")); eexists; intros s; reflexivity.
Qed.

Lemma render_nutrition_nullish nutrition_info s :
  nullish nutrition_info = true ->
  render_nutrition nutrition_info s
  = (Throw (TypeError_read nutrition_info "error"), s, []).
Proof. destruct nutrition_info; try discriminate; reflexivity. Qed.

(** The results block either is built or throws on the first read
    through [nutrition_info]; it never writes state or emits. *)
Lemma render_results_cases data image s :
  js_truthy data = true ->
  (nullish (property data "nutrition_info") = false
   /\ exists section, render_results data image s = (Normal section, s, []))
  \/ (nullish (property data "nutrition_info") = true
      /\ exists e, render_results data image s = (Throw e, s, [])).
Proof.
  intros Ht. pose proof (truthy_not_nullish _ Ht) as Hd.
  unfold render_results. rewrite !(member_defined _ _ Hd).
  destruct (nullish (property data "nutrition_info")) eqn:Hn.
  - right. split; [reflexivity|]. unfold bind, ret.
    rewrite (render_nutrition_nullish _ _ Hn). eexists. reflexivity.
  - left. split; [reflexivity|].
    destruct (render_nutrition_defined _ Hn) as [item Hi].
    unfold bind, ret. rewrite Hi. eexists. reflexivity.
Qed.

(** X7.  When the stored result is truthy and its [nutrition_info]
    property is [null] or missing, [App] throws while it builds its
    tree (the read of [result.nutrition_info.error], line 191), so the
    page is not rendered.  Every success answer with such a body, the
    empty object for one, puts the page in that state: the body is
    stored unchecked and the next rendering throws. *)
Theorem missing_nutrition_info_breaks_render :
  (forall s : State,
      js_truthy (result s) = true ->
      nullish (property (result s) "nutrition_info") = true ->
      exists e, completion_of (render s) = Throw e)
  /\ (forall (response : Response) (v : JsVal) (s : State) (blob : RcFile),
         selected_blob s = Some blob ->
         ok response = true ->
         json response = Resolved v ->
         js_truthy v = true ->
         nullish (property v "nutrition_info") = true ->
         let s' := state_of (handleUpload (Resolved response) s) in
         result s' = v
         /\ error s' = None
         /\ exists e, completion_of (render s') = Throw e).
Proof.
  assert (H : forall s : State,
             js_truthy (result s) = true ->
             nullish (property (result s) "nutrition_info") = true ->
             exists e, completion_of (render s) = Throw e).
  { intros s Ht Hn. unfold render, bind, get_state. rewrite Ht.
    destruct (render_results_cases (result s) (imageUrl s) s Ht)
      as [[Hn' _] | [_ [e He]]]; [congruence|].
    rewrite He. cbn. eauto. }
  split; [exact H|].
  intros response v s blob Hb Hok Hj Ht Hn. cbn zeta.
  rewrite (handleUpload_submits _ _ _ Hb). cbn [state_of fst snd].
  rewrite (resume_ok_parsed _ _ _ Hok Hj). cbn [state_of fst snd result error].
  split; [reflexivity|]. split; [reflexivity|].
  apply H; assumption.
Qed.

(** A 200 answer whose body is the empty object is stored, and the next
    rendering throws. *)
Lemma missing_nutrition_info_breaks_render_witness :
  let s' := state_of (handleUpload (respond 200 (JObj [])) ready) in
  result s' = JObj []
  /\ error s' = None
  /\ exists e, completion_of (render s') = Throw e.
Proof.
  cbn zeta.
  apply (proj2 missing_nutrition_info_breaks_render
           {| response_status := 200; json := Resolved (JObj []) |}
           (JObj []) ready apple_png);
    reflexivity.
Defined.

(** X8.  Rendering is read-only: whatever the state, and whether it
    completes or throws, it leaves the state as it was and emits no
    effect (no toast, no request). *)
Theorem render_is_read_only (s : State) :
  state_of (render s) = s /\ effects_of (render s) = [].
Proof.
  unfold render, bind, get_state.
  destruct (js_truthy (result s)) eqn:Ht.
  - destruct (render_results_cases (result s) (imageUrl s) s Ht)
      as [[_ [section ->]] | [_ [e ->]]]; split; reflexivity.
  - split; reflexivity.
Qed.

(** What a completed rendering shows outside the results section. *)
Lemma render_controls s view :
  completion_of (render s) = Normal view ->
  upload_list view = fileList s
  /\ upload_button view
     = (if (1 <=? length (fileList s))%nat then None
        else Some (if uploading s then LoadingOutlined else UploadOutlined))
  /\ analyze_disabled view = (length (fileList s) =? 0)%nat
  /\ analyze_loading view = uploading s
  /\ analyze_label view = (if uploading s then "Analyzing..." else "Analyze Food").
Proof.
  unfold render, bind, get_state.
  destruct (js_truthy (result s)).
  - destruct (render_results _ _ _) as [[[section|e] s1] out];
      cbn; intros [= <-]; repeat split.
  - cbn. intros [= <-]. repeat split.
Qed.

(** X9.  The controls follow the state: the upload tile is offered
    exactly when nothing is selected; the Analyze button is disabled
    exactly when nothing is selected and loading exactly while
    uploading; so the button answers a click ([clickable]) exactly when
    the rendered button is neither disabled nor loading. *)
Theorem controls_follow_state (s : State) (view : View) :
  completion_of (render s) = Normal view ->
  (upload_button view = None <-> fileList s <> [])
  /\ (analyze_disabled view = true <-> fileList s = [])
  /\ (analyze_loading view = true <-> uploading s = true)
  /\ clickable s = negb (analyze_disabled view) && negb (analyze_loading view).
Proof.
  intros Hv. destruct (render_controls _ _ Hv) as (_ & Hb & Hd & Hl & _).
  rewrite Hb, Hd, Hl. unfold clickable.
  destruct (fileList s) as [|entry rest]; destruct (uploading s); cbn;
    intuition (try congruence; try discriminate).
Qed.

Lemma controls_follow_state_witness :
  exists view,
    completion_of (render ready) = Normal view
    /\ upload_button view = None
    /\ analyze_disabled view = false
    /\ clickable ready = negb (analyze_disabled view) && negb (analyze_loading view).
Proof.
  eexists. split; [reflexivity|].
  destruct (controls_follow_state ready _ eq_refl) as (Hb & Hd & _ & Hk).
  split; [apply Hb; discriminate|].
  split; [reflexivity | exact Hk].
Defined.

(** X10.  A success answer whose body is a falsy JSON value ([null],
    [false], zero, the empty string) is stored like any other, and the
    page then shows neither an error section nor a results section. *)
Theorem falsy_body_shows_nothing
  (response : Response) (v : JsVal) (s : State) (blob : RcFile) :
  selected_blob s = Some blob ->
  ok response = true ->
  json response = Resolved v ->
  js_truthy v = false ->
  let s' := state_of (handleUpload (Resolved response) s) in
  result s' = v
  /\ exists view,
       render s' = (Normal view, s', [])
       /\ error_section view = None
       /\ results_section view = None.
Proof.
  intros Hb Hok Hj Hf. cbn zeta.
  rewrite (handleUpload_submits _ _ _ Hb). cbn [state_of fst snd].
  rewrite (resume_ok_parsed _ _ _ Hok Hj). cbn [state_of fst snd result].
  split; [reflexivity|].
  eexists. split; [apply render_without_result; exact Hf|].
  split; reflexivity.
Qed.

Lemma falsy_body_shows_nothing_witness :
  let s' := state_of (handleUpload (respond 200 JNull) ready) in
  result s' = JNull
  /\ exists view,
       render s' = (Normal view, s', [])
       /\ error_section view = None
       /\ results_section view = None.
Proof.
  cbn zeta.
  apply (falsy_body_shows_nothing
           {| response_status := 200; json := Resolved JNull |} JNull ready apple_png);
    reflexivity.
Defined.

(** ** What each event leaves alone *)

(** Closes one conjunct of a frame statement: either the cell is
    visibly unchanged, or the event is one of those excluded. *)
Ltac frame_case :=
  repeat split; intros; try congruence;
  try (exfalso;
       match goal with
       | H : forall _ _, _ <> _ |- _ => eapply H; reflexivity
       | H : forall _, _ <> _ |- _ => eapply H; reflexivity
       | H : _ <> _ |- _ => apply H; reflexivity
       end).

(** X11.  Each cell is written by few events: the selection only by
    choosing or removing a file; the preview only by the reader's
    [onload] or by removing the file; [uploading] and the number of
    requests in flight only by a click on Analyze or by the settling of
    a request; the error never by the reader's [onload]. *)
Theorem events_write_few_cells (c c' : Config) (ev : Event) :
  step c ev = Some c' ->
  ((forall file objectUrl, ev <> SelectFile file objectUrl) -> ev <> RemoveFile ->
   fileList (state c') = fileList (state c))
  /\ ((forall dataUrl, ev <> ReaderLoaded dataUrl) -> ev <> RemoveFile ->
      imageUrl (state c') = imageUrl (state c))
  /\ (ev <> ClickAnalyze -> (forall fetched, ev <> FetchSettled fetched) ->
      uploading (state c') = uploading (state c) /\ in_flight c' = in_flight c)
  /\ (forall dataUrl, ev = ReaderLoaded dataUrl ->
      error (state c') = error (state c)).
Proof.
  intros Hstep. destruct c as [s n].
  destruct ev as [file objectUrl| |dataUrl| |fetched];
    unfold step in Hstep; cbn [state in_flight] in *.
  - injection Hstep as <-. cbn [state in_flight].
    destruct (beforeUpload_state file objectUrl s) as [-> | ->]; cbn; frame_case.
  - injection Hstep as <-. cbn. frame_case.
  - injection Hstep as <-. cbn. frame_case.
  - destruct (clickable s); [|discriminate].
    destruct (selected_blob s) as [blob|] eqn:Hb.
    + rewrite (handleUpload_start_blob _ _ Hb) in Hstep.
      injection Hstep as <-. cbn. frame_case.
    + destruct (handleUpload_start_no_blob _ Hb) as [text Hs].
      rewrite Hs in Hstep. injection Hstep as <-. cbn. frame_case.
  - destruct n as [|n]; [discriminate|]. injection Hstep as <-. cbn [state in_flight].
    destruct (resume_shape fetched s) as (r & e & -> & _). cbn. frame_case.
Qed.

(** Selecting another file while a request is in flight leaves
    [uploading] on and the request count at one. *)
Lemma events_write_few_cells_witness :
  let c := {| state := state_of (handleUpload_start ready); in_flight := 1 |} in
  let c' := {| state := state_of (beforeUpload large_jpeg "blob:feast" (state c));
               in_flight := 1 |} in
  uploading (state c') = uploading (state c) /\ in_flight c' = in_flight c.
Proof.
  cbn zeta.
  apply (proj1 (proj2 (proj2 (events_write_few_cells
                                {| state := state_of (handleUpload_start ready);
                                   in_flight := 1 |}
                                _ (SelectFile large_jpeg "blob:feast") eq_refl)))).
  - discriminate.
  - intros fetched. discriminate.
Defined.

(** ** Toasts and stored errors *)

(** X13.  The two kinds of failure never mix.  A submission that is
    stopped by a guard (nothing selected, or no Blob behind the entry)
    shows exactly one toast, sends nothing and leaves the whole state,
    the error cell included, as it was.  A submission that sends a
    request shows no toast at all: its failures go to the error cell. *)
Theorem guards_toast_failures_store (fetched : Settled Response) (s : State) :
  (selected_blob s = None ->
   state_of (handleUpload fetched s) = s
   /\ requests (effects_of (handleUpload fetched s)) = []
   /\ exists text, effects_of (handleUpload fetched s) = [message_error text])
  /\ (forall blob, selected_blob s = Some blob ->
        messages (effects_of (handleUpload fetched s)) = []
        /\ length (requests (effects_of (handleUpload fetched s))) = 1%nat).
Proof.
  split.
  - intros Hb. destruct (handleUpload_start_no_blob _ Hb) as [text Hs].
    unfold handleUpload, bind. rewrite Hs. cbn. eauto.
  - intros blob Hb. rewrite (handleUpload_submits _ _ _ Hb). cbn. split; reflexivity.
Qed.

Lemma guards_toast_failures_store_witness :
  messages (effects_of (handleUpload (respond 500 (JStr "oops")) ready)) = []
  /\ length (requests (effects_of (handleUpload (respond 500 (JStr "oops")) ready)))
     = 1%nat.
Proof.
  apply (proj2 (guards_toast_failures_store (respond 500 (JStr "oops")) ready)
           apple_png).
  reflexivity.
Defined.

Lemma truthy_string_or_missing v :
  string_or_missing v = true -> js_truthy v = true ->
  exists text, v = JStr text /\ text <> "".
Proof.
  destruct v; try discriminate. intros _ H. exists s. split; [reflexivity|].
  cbn in H. apply negb_true_iff in H. apply String.eqb_neq. exact H.
Qed.

(** The text of [errorMessage] is never empty when the two properties
    are strings or missing. *)
Lemma errorMessage_text_nonempty response v :
  string_or_missing (property v "message") = true ->
  string_or_missing (property v "error") = true ->
  thrown_message (js_or (js_or (property v "message") (property v "error"))
                    (JStr (error_status response))) <> "".
Proof.
  intros Hm He.
  destruct (js_truthy (property v "message")) eqn:Tm.
  - rewrite (js_or_truthy _ (property v "error") Tm), (js_or_truthy _ _ Tm).
    destruct (truthy_string_or_missing _ Hm Tm) as (text & -> & Hne). exact Hne.
  - rewrite (js_or_falsy _ (property v "error") Tm).
    destruct (js_truthy (property v "error")) eqn:Te.
    + rewrite (js_or_truthy _ _ Te).
      destruct (truthy_string_or_missing _ He Te) as (text & -> & Hne). exact Hne.
    + rewrite (js_or_falsy _ _ Te). discriminate.
Qed.

(** X14.  For an answer with a non-success status whose body does not
    parse, or whose [message] and [error] properties are strings or
    missing, the stored error text is not empty; the page then renders
    with that text in the error section and without a results section. *)
Theorem server_error_is_always_shown (response : Response) (s : State) (blob : RcFile) :
  selected_blob s = Some blob ->
  ok response = false ->
  (forall v, json response = Resolved v ->
             string_or_missing (property v "message") = true
             /\ string_or_missing (property v "error") = true) ->
  let s' := state_of (handleUpload (Resolved response) s) in
  exists text view,
    error s' = Some text
    /\ text <> ""
    /\ render s' = (Normal view, s', [])
    /\ error_section view = Some text
    /\ results_section view = None.
Proof.
  intros Hb Hok Hstr. cbn zeta.
  rewrite (handleUpload_submits _ _ _ Hb). cbn [state_of fst snd].
  set (started := {| fileList := fileList s; uploading := true;
                     imageUrl := imageUrl s; result := result s; error := None |}).
  assert (Hx : exists x, errorMessage_of response started = (Normal x, started, [])
                         /\ thrown_message x <> "").
  { destruct (json response) as [e|v] eqn:Hj.
    - eexists. split; [apply (errorMessage_of_rejected _ _ _ Hj)|]. discriminate.
    - eexists. split; [apply (errorMessage_of_resolved _ _ _ Hj)|].
      destruct (Hstr v eq_refl) as [Hm He].
      apply errorMessage_text_nonempty; assumption. }
  destruct Hx as (x & Hx & Hne).
  rewrite (resume_not_ok _ _ _ Hok Hx). cbn [state_of fst snd].
  exists (thrown_message x). eexists. split; [reflexivity|]. split; [exact Hne|].
  split; [apply render_without_result; reflexivity|].
  cbn. apply String.eqb_neq in Hne. rewrite Hne. split; reflexivity.
Qed.

(** FastAPI's [{detail: ...}] body has neither property: [Error 422]. *)
Lemma server_error_is_always_shown_witness :
  let s' := state_of (handleUpload
                        (respond 422 (JObj [("detail", JStr "no file part")])) ready) in
  exists text view,
    error s' = Some text
    /\ text <> ""
    /\ render s' = (Normal view, s', [])
    /\ error_section view = Some text
    /\ results_section view = None.
Proof.
  cbn zeta.
  apply (server_error_is_always_shown
           {| response_status := 422;
              json := Resolved (JObj [("detail", JStr "no file part")]) |}
           ready apple_png eq_refl eq_refl).
  intros v [= <-]. split; reflexivity.
Defined.

(** ** Submissions overwrite *)

Lemma resume_overwrites fetched s1 s2 :
  error s1 = error s2 ->
  result (state_of (handleUpload_resume fetched s1))
  = result (state_of (handleUpload_resume fetched s2))
  /\ error (state_of (handleUpload_resume fetched s1))
     = error (state_of (handleUpload_resume fetched s2)).
Proof.
  intros He. destruct fetched as [e|response].
  - rewrite !resume_rejected. split; reflexivity.
  - destruct (ok response) eqn:Hok.
    + destruct (json response) as [e|v] eqn:Hj.
      * rewrite !(resume_ok_unparseable _ _ _ Hok Hj). split; reflexivity.
      * rewrite !(resume_ok_parsed _ _ _ Hok Hj). cbn. split; [reflexivity | exact He].
    + destruct (json response) as [e|v] eqn:Hj.
      * rewrite (resume_not_ok _ _ s1 Hok (errorMessage_of_rejected _ _ _ Hj)).
        rewrite (resume_not_ok _ _ s2 Hok (errorMessage_of_rejected _ _ _ Hj)).
        split; reflexivity.
      * rewrite (resume_not_ok _ _ s1 Hok (errorMessage_of_resolved _ _ _ Hj)).
        rewrite (resume_not_ok _ _ s2 Hok (errorMessage_of_resolved _ _ _ Hj)).
        split; reflexivity.
Qed.

(** X15.  A submission that sends a request replaces the result and the
    error wholesale: what is stored afterwards depends on the answer
    alone, not on the result or error stored before, nor on the file. *)
Theorem submission_overwrites_result_and_error
  (fetched : Settled Response) (s1 s2 : State) (blob1 blob2 : RcFile) :
  selected_blob s1 = Some blob1 ->
  selected_blob s2 = Some blob2 ->
  result (state_of (handleUpload fetched s1)) = result (state_of (handleUpload fetched s2))
  /\ error (state_of (handleUpload fetched s1)) = error (state_of (handleUpload fetched s2)).
Proof.
  intros H1 H2.
  rewrite (handleUpload_submits _ _ _ H1), (handleUpload_submits _ _ _ H2).
  cbn [state_of fst snd]. apply resume_overwrites. reflexivity.
Qed.

Lemma submission_overwrites_result_and_error_witness :
  let fresh := ready in
  let used :=
    {| fileList := [upload_entry large_jpeg "blob:feast"]; uploading := false;
       imageUrl := Some "data:image/jpeg;base64,AAAA";
       result := AnalysisResult.to_js apple; error := Some "Error 500" |} in
  let answer := respond 200 (AnalysisResult.to_js unknown_dish) in
  result (state_of (handleUpload answer fresh)) = result (state_of (handleUpload answer used))
  /\ error (state_of (handleUpload answer fresh)) = error (state_of (handleUpload answer used)).
Proof.
  cbn zeta.
  apply (submission_overwrites_result_and_error _ _ _ apple_png large_jpeg);
    reflexivity.
Defined.

(** ** The results section *)

Lemma render_document (r : AnalysisResult.t) (s : State) :
  result s = AnalysisResult.to_js r ->
  exists view item,
    render s = (Normal view, s, [])
    /\ error_section view = when_string (error s) (fun text => text)
    /\ results_section view
       = Some {| detected_foods := JArr (map JStr (AnalysisResult.detected_food r));
                 main_ingredient := JStr (AnalysisResult.main_ingredient r);
                 nutrition := item;
                 healthier_alternative := JStr (AnalysisResult.healthier_alternative r);
                 food_image := when_string (imageUrl s) (fun u => u) |}.
Proof.
  intros Hr.
  destruct (render_nutrition_defined
              (NutritionInfo.to_js (AnalysisResult.nutrition_info r)) eq_refl)
    as [item Hi].
  destruct (render_analysis r item s Hr Hi) as (view & Hv & Hs).
  exists view, item. split; [exact Hv|]. split; [|exact Hs].
  apply render_error_section. rewrite Hv. reflexivity.
Qed.

(** X12.  A stored document of the [AnalysisResult] shape always
    renders: the detected foods are handed to the list as an array of
    their names in order (an empty sequence gives an empty list, not an
    error), the main ingredient and the healthier alternative are shown
    as text, and the preview image is part of the results section
    exactly when a non-empty data URL is stored. *)
Theorem document_is_rendered (r : AnalysisResult.t) (s : State) :
  result s = AnalysisResult.to_js r ->
  exists view section,
    render s = (Normal view, s, [])
    /\ results_section view = Some section
    /\ detected_foods section = JArr (map JStr (AnalysisResult.detected_food r))
    /\ (AnalysisResult.detected_food r = [] -> detected_foods section = JArr [])
    /\ main_ingredient section = JStr (AnalysisResult.main_ingredient r)
    /\ healthier_alternative section = JStr (AnalysisResult.healthier_alternative r)
    /\ (forall u, food_image section = Some u <-> imageUrl s = Some u /\ u <> "").
Proof.
  intros Hr. destruct (render_document r s Hr) as (view & item & Hv & _ & Hs).
  exists view. eexists. split; [exact Hv|]. split; [exact Hs|]. cbn.
  split; [reflexivity|]. split; [intros ->; reflexivity|].
  split; [reflexivity|]. split; [reflexivity|].
  intros u. unfold when_string. destruct (imageUrl s) as [text|].
  - destruct (text =? "") eqn:E.
    + apply String.eqb_eq in E. subst text. split; [discriminate|].
      intros [[= <-] Hne]. congruence.
    + apply String.eqb_neq in E. split.
      * intros [= <-]. split; [reflexivity | exact E].
      * intros [[= <-] _]. reflexivity.
  - split; [discriminate | intros [H _]; discriminate].
Qed.

Lemma document_is_rendered_witness :
  let s := state_of (handleUpload (respond 200 (AnalysisResult.to_js apple)) ready) in
  exists view section,
    render s = (Normal view, s, [])
    /\ results_section view = Some section
    /\ detected_foods section = JArr [JStr "apple"; JStr "fruit"]
    /\ main_ingredient section = JStr "apple"
    /\ healthier_alternative section = JStr "Already a healthy choice".
Proof.
  cbn zeta.
  destruct (document_is_rendered apple
              (state_of (handleUpload (respond 200 (AnalysisResult.to_js apple)) ready))
              eq_refl)
    as (view & section & Hv & Hs & Hf & _ & Hm & Ha & _).
  exists view, section. repeat split; assumption.
Defined.

(** X16.  Choosing another file while a result is on screen leaves that
    result on screen: once the new file is accepted and its preview has
    loaded, the page shows the document of the earlier submission next
    to the preview of the newly selected file, and the new file is what
    the next submission sends. *)
Theorem old_result_beside_new_preview
  (r : AnalysisResult.t) (s : State) (file : RcFile) (objectUrl dataUrl : string) :
  result s = AnalysisResult.to_js r ->
  admissible file = true ->
  dataUrl <> "" ->
  let s' := state_of (reader_onload dataUrl (state_of (beforeUpload file objectUrl s))) in
  selected_blob s' = Some file
  /\ exists view section,
       render s' = (Normal view, s', [])
       /\ results_section view = Some section
       /\ detected_foods section = JArr (map JStr (AnalysisResult.detected_food r))
       /\ main_ingredient section = JStr (AnalysisResult.main_ingredient r)
       /\ food_image section = Some dataUrl
       /\ error_section view = None.
Proof.
  intros Hr Hadm Hne. cbn zeta.
  unfold admissible in Hadm. apply andb_true_iff in Hadm as [T L].
  rewrite (beforeUpload_accepts _ objectUrl s T L). cbn [state_of fst snd].
  unfold reader_onload, setImageUrl. cbn [state_of fst snd fileList uploading result error].
  split; [reflexivity|].
  match goal with |- context [render ?st] => set (s' := st) end.
  destruct (render_document r s' Hr) as (view & item & Hv & He & Hs).
  exists view. eexists. split; [exact Hv|]. split; [exact Hs|]. cbn.
  apply String.eqb_neq in Hne. rewrite Hne.
  repeat split. rewrite He. reflexivity.
Qed.

Lemma old_result_beside_new_preview_witness :
  let s := state_of (handleUpload (respond 200 (AnalysisResult.to_js apple)) ready) in
  let s' := state_of (reader_onload "data:image/jpeg;base64,/9j/"
                        (state_of (beforeUpload
                                     {| rc_uid := "rc-upload-4"; rc_name := "soup.jpg";
                                        type := "image/jpeg"; size := 1024;
                                        content := [Byte.xff; Byte.xd8] |}
                                     "blob:soup" s))) in
  exists view section,
    render s' = (Normal view, s', [])
    /\ results_section view = Some section
    /\ detected_foods section = JArr [JStr "apple"; JStr "fruit"]
    /\ main_ingredient section = JStr "apple"
    /\ food_image section = Some "data:image/jpeg;base64,/9j/"
    /\ error_section view = None.
Proof.
  cbn zeta.
  apply (old_result_beside_new_preview apple
           (state_of (handleUpload (respond 200 (AnalysisResult.to_js apple)) ready))
           {| rc_uid := "rc-upload-4"; rc_name := "soup.jpg";
              type := "image/jpeg"; size := 1024; content := [Byte.xff; Byte.xd8] |}
           "blob:soup" "data:image/jpeg;base64,/9j/" eq_refl eq_refl).
  discriminate.
Defined.

(** ** After the answer *)



(** * The debug page *)



(** X18.  How a run of the debug listener ends, on the page as it is at
    that moment.  The run waits for [json()] exactly when [fetch]
    resolved with a status from 200 to 299; when the body then parses,
    the results panel is made visible with the pretty-printed body and
    the error panel is left as it is.  Every other ending ([fetch]
    rejected, a body that does not parse, a non-success status) makes
    the error panel visible and leaves the results panel as it is.  No
    ending hides a panel. *)
Theorem debug_run_end_reveals_its_panel (page : DebugTool.Page) :
  (forall response,
      snd (DebugTool.on_fetch_settled (DebugTool.Resolves response) page)
      = Some (DebugTool.AwaitingJson response)
      <-> (200 <= DebugTool.status response <= 299)%N)
  /\ (forall response,
         fst (fst (DebugTool.on_fetch_settled (DebugTool.Resolves response) page)) = page)
  /\ (forall response data,
         DebugTool.json response = DebugTool.Resolves data ->
         let page' := fst (DebugTool.on_body_settled (DebugTool.AwaitingJson response)
                             page) in
         DebugTool.results_hidden page' = false
         /\ DebugTool.responseData page' = DebugTool.Stringified data
         /\ DebugTool.error_hidden page' = DebugTool.error_hidden page
         /\ DebugTool.errorData page' = DebugTool.errorData page)
  /\ (forall page',
         (exists e, page' = fst (fst (DebugTool.on_fetch_settled (DebugTool.Rejects e) page)))
         \/ (exists response e,
                DebugTool.json response = DebugTool.Rejects e
                /\ page' = fst (DebugTool.on_body_settled
                                  (DebugTool.AwaitingJson response) page))
         \/ (exists response,
                page' = fst (DebugTool.on_body_settled
                               (DebugTool.AwaitingText response) page)) ->
         DebugTool.error_hidden page' = false
         /\ DebugTool.results_hidden page' = DebugTool.results_hidden page
         /\ DebugTool.responseData page' = DebugTool.responseData page).
Proof.
  split; [|split; [|split]].
  - intros response. cbn.
    assert (Hrange : DebugTool.ok response = true
                     <-> (200 <= DebugTool.status response <= 299)%N).
    { unfold DebugTool.ok. rewrite andb_true_iff, !N.leb_le. tauto. }
    destruct (DebugTool.ok response); cbn; split; intros H.
    + apply Hrange. reflexivity.
    + reflexivity.
    + discriminate.
    + apply Hrange in H. discriminate.
  - intros response. reflexivity.
  - intros response data Hj. cbn. rewrite Hj. cbn. repeat split.
  - intros page' [[e ->] | [(response & e & Hj & ->) | [response ->]]].
    + cbn. repeat split.
    + cbn. rewrite Hj. cbn. repeat split.
    + cbn. destruct (DebugTool.text response); cbn; repeat split.
Qed.

Lemma debug_run_end_reveals_its_panel_witness :
  let answer :=
    {| DebugTool.status := 200;
       DebugTool.text := DebugTool.Resolves "{}";
       DebugTool.json := DebugTool.Resolves (AnalysisResult.to_js apple) |} in
  let page' := fst (DebugTool.on_body_settled (DebugTool.AwaitingJson answer)
                      DebugTool.loaded) in
  DebugTool.results_hidden page' = false
  /\ DebugTool.responseData page' = DebugTool.Stringified (AnalysisResult.to_js apple)
  /\ DebugTool.error_hidden page' = true
  /\ DebugTool.errorData page' = DebugTool.Literal "".
Proof.
  cbn zeta.
  apply (proj1 (proj2 (proj2 (debug_run_end_reveals_its_panel DebugTool.loaded)))).
  reflexivity.
Defined.

(** X19.  A run of the debug listener waits for [text()] exactly when
    the status is outside 200 to 299; when that body is readable, the
    error panel shows [Error: HTTP error <status>: <body>], the raw
    body included, and the results panel is left as it is: hidden when
    no other run revealed it meanwhile. *)
Theorem debug_http_error_text
  (response : DebugTool.Response) (errorText : string) (page : DebugTool.Page) :
  DebugTool.text response = DebugTool.Resolves errorText ->
  (DebugTool.ok response = false ->
   snd (DebugTool.on_fetch_settled (DebugTool.Resolves response) page)
   = Some (DebugTool.AwaitingText response))
  /\ (let page' := fst (DebugTool.on_body_settled (DebugTool.AwaitingText response)
                          page) in
      DebugTool.errorData page'
      = DebugTool.Literal ("Error: HTTP error " ++ decimal (DebugTool.status response)
                           ++ ": " ++ errorText)
      /\ DebugTool.error_hidden page' = false
      /\ DebugTool.results_hidden page' = DebugTool.results_hidden page
      /\ DebugTool.responseData page' = DebugTool.responseData page).
Proof.
  intros Ht. split.
  - intros Hok. cbn. rewrite Hok. reflexivity.
  - cbn. rewrite Ht. cbn. repeat split.
Qed.

Lemma debug_http_error_text_witness :
  let response :=
    {| DebugTool.status := 500;
       DebugTool.text := DebugTool.Resolves "Internal Server Error";
       DebugTool.json := DebugTool.Rejects
                           {| DebugTool.error_name := "SyntaxError";
                              DebugTool.error_message := "Unexpected token I" |} |} in
  DebugTool.errorData
    (fst (DebugTool.on_body_settled (DebugTool.AwaitingText response) DebugTool.loaded))
  = DebugTool.Literal "Error: HTTP error 500: Internal Server Error".
Proof.
  cbn zeta.
  exact (proj1 (proj2 (debug_http_error_text
                  {| DebugTool.status := 500;
                     DebugTool.text := DebugTool.Resolves "Internal Server Error";
                     DebugTool.json :=
                       DebugTool.Rejects
                         {| DebugTool.error_name := "SyntaxError";
                            DebugTool.error_message := "Unexpected token I" |} |}
                  "Internal Server Error" DebugTool.loaded eq_refl))).
Defined.

(** X21.  Nothing on the debug page keeps two runs apart.  When a
    second submit starts before the first is answered, the first gets a
    success with a body that parses and the second then fails in
    [fetch], both panels end up visible: the results of the first run
    and the error of the second. *)
Theorem debug_overlapping_runs_show_both_panels
  (page : DebugTool.Page) (fileA fileB : DebugTool.File) (restA restB : list DebugTool.File)
  (response : DebugTool.Response) (data : JsVal) (e : DebugTool.ErrorObject) :
  DebugTool.ok response = true ->
  DebugTool.json response = DebugTool.Resolves data ->
  exists t',
    DebugTool.run {| DebugTool.page := page; DebugTool.pending := [] |}
      [DebugTool.Submit (fileA :: restA);
       DebugTool.Submit (fileB :: restB);
       DebugTool.FetchSettles 0 (DebugTool.Resolves response);
       DebugTool.BodySettles 0;
       DebugTool.FetchSettles 0 (DebugTool.Rejects e)] = Some t'
    /\ DebugTool.pending t' = []
    /\ DebugTool.results_hidden (DebugTool.page t') = false
    /\ DebugTool.responseData (DebugTool.page t') = DebugTool.Stringified data
    /\ DebugTool.error_hidden (DebugTool.page t') = false
    /\ DebugTool.errorData (DebugTool.page t') = DebugTool.Literal (DebugTool.toString e).
Proof.
  intros Hok Hj. cbn. rewrite Hok. cbn. rewrite Hj. cbn.
  eexists. split; [reflexivity|]. cbn. repeat split.
Qed.

Lemma debug_overlapping_runs_show_both_panels_witness :
  let png :=
    {| DebugTool.file_name := "apple.png"; DebugTool.file_type := "image/png";
       DebugTool.file_size := 2048; DebugTool.file_content := [Byte.x89] |} in
  let answer :=
    {| DebugTool.status := 200;
       DebugTool.text := DebugTool.Resolves "{}";
       DebugTool.json := DebugTool.Resolves (JObj []) |} in
  let failure :=
    {| DebugTool.error_name := "TypeError";
       DebugTool.error_message := "Failed to fetch" |} in
  exists t',
    DebugTool.run {| DebugTool.page := DebugTool.loaded; DebugTool.pending := [] |}
      [DebugTool.Submit [png]; DebugTool.Submit [png];
       DebugTool.FetchSettles 0 (DebugTool.Resolves answer);
       DebugTool.BodySettles 0;
       DebugTool.FetchSettles 0 (DebugTool.Rejects failure)] = Some t'
    /\ DebugTool.pending t' = []
    /\ DebugTool.results_hidden (DebugTool.page t') = false
    /\ DebugTool.responseData (DebugTool.page t') = DebugTool.Stringified (JObj [])
    /\ DebugTool.error_hidden (DebugTool.page t') = false
    /\ DebugTool.errorData (DebugTool.page t')
       = DebugTool.Literal "TypeError: Failed to fetch".
Proof.
  cbn zeta.
  exact (debug_overlapping_runs_show_both_panels DebugTool.loaded _ _ [] []
           {| DebugTool.status := 200;
              DebugTool.text := DebugTool.Resolves "{}";
              DebugTool.json := DebugTool.Resolves (JObj []) |}
           (JObj [])
           {| DebugTool.error_name := "TypeError";
              DebugTool.error_message := "Failed to fetch" |}
           eq_refl eq_refl).
Defined.
